(** * PiKVM client: request contract and configuration defaulting

    A shallow embedding of [lib/index.js] (the JavaScript client, the file
    the test-suite loads), of the class of the TypeScript source and of the
    example script that runs the JavaScript client.  [Lib] has the methods
    where the runtime returns normally; [Strict] adds the two places where
    it throws before a request exists.  The client is a thin binding: every method builds a
    method, a path and an optional body, hands them to [request], and the
    promise it returns is settled by the response events. *)

From Stdlib Require Import String Ascii List ZArith QArith Bool Lia.
From Stdlib Require Import DecimalString.
Import ListNotations.

Local Open Scope string_scope.
Local Open Scope Z_scope.

(** ** JavaScript values *)

Module JS.

(** A JS number.  The client never computes with numbers: it tests them for
    truthiness and passes them on, so a finite number is kept as an exact
    fraction. *)
Inductive number : Type :=
| Finite (q : Q)
| NaN
| Infinity (negative : bool).

Definition int (z : Z) : number := Finite (z # 1).

(** The values that travel through the client: configuration fields, request
    bodies and parsed responses.  An object literal is the list of its own
    properties in insertion order, the order [JSON.stringify] prints. *)
#[warnings="-register-all"]
Inductive value : Type :=
| Undefined
| Null
| Bool (b : bool)
| Num (n : number)
| Str (s : string)
| Arr (items : list value)
| Obj (props : list (string * value)).

(** ToBoolean *)
Definition truthy (v : value) : bool :=
  match v with
  | Undefined | Null => false
  | Bool b => b
  | Num (Finite q) => negb (Qnum q =? 0)
  | Num NaN => false
  | Num (Infinity _) => true
  | Str s => negb (String.eqb s "")
  | Arr _ | Obj _ => true
  end.

(** [a || b] *)
Definition or_else (a b : value) : value := if truthy a then a else b.

(** [v !== false] *)
Definition isnt_false (v : value) : bool :=
  match v with
  | Bool false => false
  | _ => true
  end.

(** A property that was never written reads as [undefined]; a string-typed
    property is read through this view when it is optional. *)
Definition of_option (o : option string) : value :=
  match o with
  | Some s => Str s
  | None => Undefined
  end.

(** [new Error(message)] *)
Record Error : Type := mkError { message : string }.

(** How the evaluation of an expression ends: with a value or with a thrown
    exception. *)
Inductive completion (A : Type) : Type :=
| Normal (a : A)
| Throw (e : Error).
Arguments Normal {A} a.
Arguments Throw {A} e.

(** The state of a promise. *)
Inductive promise : Type :=
| Pending
| Fulfilled (v : value)
| Rejected (e : Error).

(** [resolve] and [reject] act on a pending promise only. *)
Definition settle (p outcome : promise) : promise :=
  match p with
  | Pending => outcome
  | _ => p
  end.

(** [haystack.includes(needle)] *)
Fixpoint includes (haystack needle : string) : bool :=
  String.prefix needle haystack ||
  match haystack with
  | EmptyString => false
  | String _ rest => includes rest needle
  end.

(** Decimal rendering of an integer, as a template literal prints it. *)
Definition decimal (z : Z) : string := NilZero.string_of_int (Z.to_int z).

End JS.

(** ** The built-ins of the runtime *)

Module Runtime.
Import JS.

(** [uriUnescaped] of ECMA-262: the characters [encodeURIComponent] keeps. *)
Definition uriUnescaped (c : ascii) : bool :=
  let n := N_of_ascii c in
  ((65 <=? n) && (n <=? 90) || (97 <=? n) && (n <=? 122) ||
   (48 <=? n) && (n <=? 57))%N ||
  existsb (Ascii.eqb c) (list_ascii_of_string "-_.!~*'()").

Definition hexdigit (n : N) : ascii :=
  match String.get (N.to_nat n) "0123456789ABCDEF" with
  | Some d => d
  | None => "0"%char
  end.

(** One octet as [%XX]. *)
Definition percent (c : ascii) : string :=
  let n := N_of_ascii c in
  String "%" (String (hexdigit (n / 16)) (String (hexdigit (n mod 16)) "")).

(** [encodeURIComponent(s)].  A string is the sequence of the octets of its
    UTF-8 form, which is what the built-in escapes one by one. *)
Fixpoint encodeURIComponent (s : string) : string :=
  match s with
  | EmptyString => ""
  | String c rest =>
      (if uriUnescaped c then String c "" else percent c)
        ++ encodeURIComponent rest
  end.

End Runtime.

(** ** The network *)

Module Net.
Import JS.

(** The module the request goes through: [https] or [http]. *)
Inductive transport : Type := https | http.

(** The [options] object handed to [client.request]. *)
Record RequestOptions : Type := {
  hostname : option string;
  port : value;
  path : string;
  method : string;
  headers : list (string * string);
  rejectUnauthorized : value
}.

(** One outgoing request: created by [client.request(options, callback)],
    fed by [req.write], closed by [req.end()]. *)
Record ClientRequest : Type := {
  via : transport;
  options : RequestOptions;
  written : list string
}.

(** What the transport reports back for a request, in order: the response
    head (the callback of [client.request] runs), the ['data'] and ['end']
    events of the response, the ['error'] event of the request. *)
Inductive event : Type :=
| response (statusCode : Z)
| data (chunk : string)
| end_
| error (e : Error).

(** The remote side: the events each request is answered with. *)
Definition remote : Type := ClientRequest -> list event.

(** A computation that talks to the network: it reads the remote side and
    appends to the log of the requests issued so far. *)
Definition io (A : Type) : Type :=
  remote -> list ClientRequest -> A * list ClientRequest.

Definition ret {A} (a : A) : io A := fun _ log => (a, log).

Definition bind {A B} (m : io A) (k : A -> io B) : io B :=
  fun net log => let (a, log') := m net log in k a net log'.

(** Issue [r] and receive the events the remote side answers it with. *)
Definition send (r : ClientRequest) : io (list event) :=
  fun net log => (net r, (log ++ [r])%list).

Definition result {A} (m : io A) (net : remote) (log : list ClientRequest) : A :=
  fst (m net log).

Definition issued {A} (m : io A) (net : remote) (log : list ClientRequest)
  : list ClientRequest :=
  snd (m net log).

End Net.

Declare Scope io_scope.
Delimit Scope io_scope with io.
Notation "x <- m ;; k" := (Net.bind m (fun x => k))
  (at level 61, m at next level, right associativity) : io_scope.

(** ** lib/index.js *)

Module Lib.
Import JS Runtime.
Local Open Scope io_scope.

Module ATXButton.
Definition POWER : string := "power".
Definition POWER_LONG : string := "power_long".
Definition RESET : string := "reset".
End ATXButton.

Module ATXPowerState.
Definition ON : string := "on".
Definition OFF : string := "off".
End ATXPowerState.

(** The [config] argument of the constructor.  [host], [username] and
    [password] are documented as strings; [None] is a property that is
    absent.  The optional properties are read with [||] and [!== false],
    which accept any value, so they stay untyped ([Undefined] when absent). *)
Module Config.
Record t : Type := {
  host : option string;
  port : value;
  secure : value;
  username : option string;
  password : option string;
  rejectUnauthorized : value
}.
End Config.

(** [this.config] *)
Module Resolved.
Record t : Type := {
  host : option string;
  port : value;
  secure : bool;
  username : option string;
  password : option string;
  rejectUnauthorized : value
}.
End Resolved.

Record PiKVMClient : Type := {
  config : Resolved.t;
  authHeader : string
}.

(** A string-typed property inside a template literal. *)
Definition template (v : option string) : string :=
  match v with
  | Some s => s
  | None => "undefined"
  end.

(** What [request] keeps between two events: the response whose callback has
    run, with the [data] accumulated so far, and the promise it returned. *)
Record exchange : Type := {
  res : option (Z * string);
  promised : promise
}.

Definition default {A} (arg : option A) (d : A) : A :=
  match arg with
  | Some a => a
  | None => d
  end.

Section Builtins.

(** [Buffer.from(s).toString('base64')] *)
Variable base64 : string -> string.
(** [JSON.parse], which throws a [SyntaxError] on a text that is not JSON *)
Variable JSON_parse : string -> completion value.
Variable JSON_stringify : value -> string.

Definition constructor (config : Config.t) : completion PiKVMClient :=
  if negb (truthy (of_option (Config.host config)))
     || negb (truthy (of_option (Config.username config)))
     || negb (truthy (of_option (Config.password config)))
  then Throw (mkError "host, username, and password are required")
  else
    let this_config := {|
      Resolved.host := Config.host config;
      Resolved.port :=
        or_else (Config.port config)
                (if isnt_false (Config.secure config)
                 then Num (int 443) else Num (int 80));
      Resolved.secure := isnt_false (Config.secure config);
      Resolved.username := Config.username config;
      Resolved.password := Config.password config;
      Resolved.rejectUnauthorized :=
        or_else (Config.rejectUnauthorized config) (Bool false)
    |} in
    let auth :=
      base64 (template (Resolved.username this_config) ++ ":"
              ++ template (Resolved.password this_config)) in
    Normal {| config := this_config; authHeader := "Basic " ++ auth |}.

(** The ['end'] handler of the response. *)
Definition on_end (statusCode : Z) (data : string) (p : promise) : promise :=
  if (200 <=? statusCode) && (statusCode <? 300) then
    match (if truthy (Str data) then JSON_parse data else Normal (Obj []))
    with
    | Normal parsed => settle p (Fulfilled parsed)
    | Throw _ => settle p (Fulfilled (Str data))
    end
  else
    settle p (Rejected (mkError ("HTTP " ++ decimal statusCode ++ ": " ++ data))).

(** One event reaching the listeners [request] has registered. *)
Definition handle (st : exchange) (ev : Net.event) : exchange :=
  match ev with
  | Net.response statusCode =>
      {| res := Some (statusCode, ""); promised := promised st |}
  | Net.data chunk =>
      match res st with
      | Some (statusCode, data) =>
          {| res := Some (statusCode, data ++ chunk); promised := promised st |}
      | None => st
      end
  | Net.end_ =>
      match res st with
      | Some (statusCode, data) =>
          {| res := res st; promised := on_end statusCode data (promised st) |}
      | None => st
      end
  | Net.error e =>
      {| res := res st; promised := settle (promised st) (Rejected e) |}
  end.

Definition request (this : PiKVMClient) (method path : string) (body : value)
  : Net.io promise :=
  let options := {|
    Net.hostname := Resolved.host (config this);
    Net.port := Resolved.port (config this);
    Net.path := path;
    Net.method := method;
    Net.headers := [("Authorization", authHeader this);
                    ("Content-Type", "application/json")];
    Net.rejectUnauthorized := Resolved.rejectUnauthorized (config this)
  |} in
  let client := if Resolved.secure (config this) then Net.https else Net.http in
  let req := {|
    Net.via := client;
    Net.options := options;
    Net.written := if truthy body then [JSON_stringify body] else []
  |} in
  events <- Net.send req ;;
  Net.ret (promised (fold_left handle events {| res := None; promised := Pending |})).

Definition getInfo (this : PiKVMClient) : Net.io promise :=
  request this "GET" "/api/info" Undefined.

Definition getATXInfo (this : PiKVMClient) : Net.io promise :=
  request this "GET" "/api/atx" Undefined.

Definition clickATXButton (this : PiKVMClient) (button : string)
           (wait : option bool) : Net.io promise :=
  let wait := default wait true in
  request this "POST"
          ("/api/atx/click?button=" ++ button ++ "&wait="
           ++ (if wait then "1" else "0"))
          (Obj []).

Definition powerOn (this : PiKVMClient) : Net.io promise :=
  clickATXButton this ATXButton.POWER None.

Definition powerOff (this : PiKVMClient) : Net.io promise :=
  clickATXButton this ATXButton.POWER None.

Definition forcePowerOff (this : PiKVMClient) : Net.io promise :=
  clickATXButton this ATXButton.POWER_LONG None.

Definition reset (this : PiKVMClient) : Net.io promise :=
  clickATXButton this ATXButton.RESET None.

Definition getMSDInfo (this : PiKVMClient) : Net.io promise :=
  request this "GET" "/api/msd" Undefined.

(** [image] is a string or [null] ([None]). *)
Definition setMSDImage (this : PiKVMClient) (image : option string)
           (cdrom : option bool) : Net.io promise :=
  let cdrom := default cdrom false in
  request this "POST" "/api/msd/set_params"
          (Obj [("image", match image with Some s => Str s | None => Null end);
                ("cdrom", Bool cdrom)]).

Definition connectMSD (this : PiKVMClient) : Net.io promise :=
  request this "POST" "/api/msd/set_connected" (Obj [("connected", Bool true)]).

Definition disconnectMSD (this : PiKVMClient) : Net.io promise :=
  request this "POST" "/api/msd/set_connected" (Obj [("connected", Bool false)]).

Definition removeMSDImage (this : PiKVMClient) (image : string)
  : Net.io promise :=
  request this "POST" ("/api/msd/remove?image=" ++ encodeURIComponent image)
          (Obj []).

Definition sendKeys (this : PiKVMClient) (keys : list string)
  : Net.io promise :=
  request this "POST" "/api/hid/events/send_key"
          (Obj [("keys", Arr (map Str keys))]).

Definition sendMouseMove (this : PiKVMClient) (x y : number)
  : Net.io promise :=
  request this "POST" "/api/hid/events/send_mouse_move"
          (Obj [("x", Num x); ("y", Num y)]).

Definition sendMouseButton (this : PiKVMClient) (button : string)
           (state : bool) : Net.io promise :=
  request this "POST" "/api/hid/events/send_mouse_button"
          (Obj [("button", Str button); ("state", Bool state)]).

Definition sendMouseWheel (this : PiKVMClient) (delta : number)
  : Net.io promise :=
  request this "POST" "/api/hid/events/send_mouse_wheel"
          (Obj [("delta", Num delta)]).

Definition getGPIO (this : PiKVMClient) : Net.io promise :=
  request this "GET" "/api/gpio" Undefined.

Definition setGPIO (this : PiKVMClient) (channel : string) (state : bool)
  : Net.io promise :=
  request this "POST" "/api/gpio/switch"
          (Obj [("channel", Str channel); ("state", Bool state)]).

Definition pulseGPIO (this : PiKVMClient) (channel : string)
           (delay : option number) : Net.io promise :=
  let delay := default delay (int 0) in
  request this "POST" "/api/gpio/pulse"
          (Obj [("channel", Str channel); ("delay", Num delay)]).

(** [const client = new PiKVMClient(config); rest(client)]: a throwing
    constructor ends the caller before [rest] runs. *)
Definition new_then {A} (config : Config.t) (rest : PiKVMClient -> Net.io A)
  : Net.io (completion A) :=
  match constructor config with
  | Throw e => Net.ret (Throw e)
  | Normal client => a <- rest client ;; Net.ret (Normal a)
  end.

End Builtins.

End Lib.

(** ** The TypeScript source

    The class of the TypeScript source has the methods of [lib/index.js],
    two differences apart: its constructor has no guard, and it declares the
    image upload. *)

Module Src.
Import JS.

Section Builtins.

Variable base64 : string -> string.

Definition constructor (config : Lib.Config.t) : Lib.PiKVMClient :=
  let this_config := {|
    Lib.Resolved.host := Lib.Config.host config;
    Lib.Resolved.port :=
      or_else (Lib.Config.port config)
              (if isnt_false (Lib.Config.secure config)
               then Num (int 443) else Num (int 80));
    Lib.Resolved.secure := isnt_false (Lib.Config.secure config);
    Lib.Resolved.username := Lib.Config.username config;
    Lib.Resolved.password := Lib.Config.password config;
    Lib.Resolved.rejectUnauthorized :=
      or_else (Lib.Config.rejectUnauthorized config) (Bool false)
  |} in
  let auth :=
    base64 (Lib.template (Lib.Resolved.username this_config) ++ ":"
            ++ Lib.template (Lib.Resolved.password this_config)) in
  {| Lib.config := this_config; Lib.authHeader := "Basic " ++ auth |}.

End Builtins.

(** An [async] method: the [throw] of its body rejects the promise it
    returns. *)
Definition writeMSDImage (this : Lib.PiKVMClient) (image : string)
           (data : list Byte.byte) : Net.io promise :=
  Net.ret (Rejected (mkError
    "MSD image upload not implemented - use HTTP multipart/form-data directly")).

(** The [enum ATXButton] of the TypeScript source, and the string each
    member stands for. *)
Inductive ATXButton : Type := POWER | POWER_LONG | RESET.

Definition code (button : ATXButton) : string :=
  match button with
  | POWER => "power"
  | POWER_LONG => "power_long"
  | RESET => "reset"
  end.

(** What an [async] method whose body is [await p;] returns: it is fulfilled
    with [undefined] once [p] is fulfilled, rejected with the error of [p],
    and pending as long as [p] is. *)
Definition awaited (p : promise) : promise :=
  match p with
  | Pending => Pending
  | Fulfilled _ => Fulfilled Undefined
  | Rejected e => Rejected e
  end.

Section Client.
Local Open Scope io_scope.

Variable JSON_parse : string -> completion value.
Variable JSON_stringify : value -> string.

(** The ['end'] handler: the status code is tested for truthiness first. *)
Definition on_end (statusCode : Z) (data : string) (p : promise) : promise :=
  if truthy (Num (int statusCode))
     && (200 <=? statusCode) && (statusCode <? 300) then
    match (if truthy (Str data) then JSON_parse data else Normal (Obj []))
    with
    | Normal parsed => settle p (Fulfilled parsed)
    | Throw _ => settle p (Fulfilled (Str data))
    end
  else
    settle p (Rejected (mkError ("HTTP " ++ decimal statusCode ++ ": " ++ data))).

Definition handle (st : Lib.exchange) (ev : Net.event) : Lib.exchange :=
  match ev with
  | Net.response statusCode =>
      {| Lib.res := Some (statusCode, ""); Lib.promised := Lib.promised st |}
  | Net.data chunk =>
      match Lib.res st with
      | Some (statusCode, data) =>
          {| Lib.res := Some (statusCode, data ++ chunk);
             Lib.promised := Lib.promised st |}
      | None => st
      end
  | Net.end_ =>
      match Lib.res st with
      | Some (statusCode, data) =>
          {| Lib.res := Lib.res st;
             Lib.promised := on_end statusCode data (Lib.promised st) |}
      | None => st
      end
  | Net.error e =>
      {| Lib.res := Lib.res st;
         Lib.promised := settle (Lib.promised st) (Rejected e) |}
  end.

Definition request (this : Lib.PiKVMClient) (method path : string)
           (body : value) : Net.io promise :=
  let options := {|
    Net.hostname := Lib.Resolved.host (Lib.config this);
    Net.port := Lib.Resolved.port (Lib.config this);
    Net.path := path;
    Net.method := method;
    Net.headers := [("Authorization", Lib.authHeader this);
                    ("Content-Type", "application/json")];
    Net.rejectUnauthorized := Lib.Resolved.rejectUnauthorized (Lib.config this)
  |} in
  let client :=
    if Lib.Resolved.secure (Lib.config this) then Net.https else Net.http in
  let req := {|
    Net.via := client;
    Net.options := options;
    Net.written := if truthy body then [JSON_stringify body] else []
  |} in
  events <- Net.send req ;;
  Net.ret (Lib.promised
             (fold_left handle events
                        {| Lib.res := None; Lib.promised := Pending |})).

Definition getInfo (this : Lib.PiKVMClient) : Net.io promise :=
  request this "GET" "/api/info" Undefined.

Definition getATXInfo (this : Lib.PiKVMClient) : Net.io promise :=
  request this "GET" "/api/atx" Undefined.

Definition clickATXButton (this : Lib.PiKVMClient) (button : ATXButton)
           (wait : option bool) : Net.io promise :=
  let wait := Lib.default wait true in
  p <- request this "POST"
               ("/api/atx/click?button=" ++ code button ++ "&wait="
                ++ (if wait then "1" else "0"))
               (Obj []) ;;
  Net.ret (awaited p).

Definition powerOn (this : Lib.PiKVMClient) : Net.io promise :=
  p <- clickATXButton this POWER None ;; Net.ret (awaited p).

Definition powerOff (this : Lib.PiKVMClient) : Net.io promise :=
  p <- clickATXButton this POWER None ;; Net.ret (awaited p).

Definition forcePowerOff (this : Lib.PiKVMClient) : Net.io promise :=
  p <- clickATXButton this POWER_LONG None ;; Net.ret (awaited p).

Definition reset (this : Lib.PiKVMClient) : Net.io promise :=
  p <- clickATXButton this RESET None ;; Net.ret (awaited p).

Definition getMSDInfo (this : Lib.PiKVMClient) : Net.io promise :=
  request this "GET" "/api/msd" Undefined.

Definition setMSDImage (this : Lib.PiKVMClient) (image : option string)
           (cdrom : option bool) : Net.io promise :=
  let cdrom := Lib.default cdrom false in
  p <- request this "POST" "/api/msd/set_params"
               (Obj [("image", match image with
                               | Some s => Str s
                               | None => Null
                               end);
                     ("cdrom", Bool cdrom)]) ;;
  Net.ret (awaited p).

Definition connectMSD (this : Lib.PiKVMClient) : Net.io promise :=
  p <- request this "POST" "/api/msd/set_connected"
               (Obj [("connected", Bool true)]) ;;
  Net.ret (awaited p).

Definition disconnectMSD (this : Lib.PiKVMClient) : Net.io promise :=
  p <- request this "POST" "/api/msd/set_connected"
               (Obj [("connected", Bool false)]) ;;
  Net.ret (awaited p).

Definition removeMSDImage (this : Lib.PiKVMClient) (image : string)
  : Net.io promise :=
  p <- request this "POST"
               ("/api/msd/remove?image=" ++ Runtime.encodeURIComponent image)
               (Obj []) ;;
  Net.ret (awaited p).

Definition sendKeys (this : Lib.PiKVMClient) (keys : list string)
  : Net.io promise :=
  p <- request this "POST" "/api/hid/events/send_key"
               (Obj [("keys", Arr (map Str keys))]) ;;
  Net.ret (awaited p).

Definition sendMouseMove (this : Lib.PiKVMClient) (x y : number)
  : Net.io promise :=
  p <- request this "POST" "/api/hid/events/send_mouse_move"
               (Obj [("x", Num x); ("y", Num y)]) ;;
  Net.ret (awaited p).

Definition sendMouseButton (this : Lib.PiKVMClient) (button : string)
           (state : bool) : Net.io promise :=
  p <- request this "POST" "/api/hid/events/send_mouse_button"
               (Obj [("button", Str button); ("state", Bool state)]) ;;
  Net.ret (awaited p).

Definition sendMouseWheel (this : Lib.PiKVMClient) (delta : number)
  : Net.io promise :=
  p <- request this "POST" "/api/hid/events/send_mouse_wheel"
               (Obj [("delta", Num delta)]) ;;
  Net.ret (awaited p).

Definition getGPIO (this : Lib.PiKVMClient) : Net.io promise :=
  request this "GET" "/api/gpio" Undefined.

Definition setGPIO (this : Lib.PiKVMClient) (channel : string) (state : bool)
  : Net.io promise :=
  p <- request this "POST" "/api/gpio/switch"
               (Obj [("channel", Str channel); ("state", Bool state)]) ;;
  Net.ret (awaited p).

Definition pulseGPIO (this : Lib.PiKVMClient) (channel : string)
           (delay : option number) : Net.io promise :=
  let delay := Lib.default delay (int 0) in
  p <- request this "POST" "/api/gpio/pulse"
               (Obj [("channel", Str channel); ("delay", Num delay)]) ;;
  Net.ret (awaited p).

End Client.

End Src.

(** ** The endpoint table of the specification *)

Module Table.
Import JS Runtime.

(** A call of one of the typed wrappers, with its arguments; [None] is an
    optional argument that is omitted. *)
Inductive call : Type :=
| GetInfo
| GetATXInfo
| ClickATXButton (button : string) (wait : option bool)
| PowerOn
| PowerOff
| ForcePowerOff
| Reset
| GetMSDInfo
| SetMSDImage (image : option string) (cdrom : option bool)
| ConnectMSD
| DisconnectMSD
| RemoveMSDImage (image : string)
| SendKeys (keys : list string)
| SendMouseMove (x y : number)
| SendMouseButton (button : string) (state : bool)
| SendMouseWheel (delta : number)
| GetGPIO
| SetGPIO (channel : string) (state : bool)
| PulseGPIO (channel : string) (delay : option number).

(** A row of the table: method, path pattern, query parameters, body. *)
Record row : Type := {
  method : string;
  path : string;
  query : list (string * string);
  body : option value
}.

Definition flag (b : bool) : string := if b then "1" else "0".

(** "URL-encoded", in the table's own terms: a character of this list is
    written as it is, every other octet as [%] and its two upper-case
    hexadecimal digits. *)
Definition unreserved : string :=
  "ABCDEFGHIJKLMNOPQRSTUVWXYZabcdefghijklmnopqrstuvwxyz0123456789-_.!~*'()".

Definition kept (c : ascii) : bool :=
  existsb (Ascii.eqb c) (list_ascii_of_string unreserved).

(** The hexadecimal digit of four bits, the highest first. *)
Definition nibble (b3 b2 b1 b0 : bool) : ascii :=
  match b3, b2, b1, b0 with
  | false, false, false, false => "0"
  | false, false, false, true => "1"
  | false, false, true, false => "2"
  | false, false, true, true => "3"
  | false, true, false, false => "4"
  | false, true, false, true => "5"
  | false, true, true, false => "6"
  | false, true, true, true => "7"
  | true, false, false, false => "8"
  | true, false, false, true => "9"
  | true, false, true, false => "A"
  | true, false, true, true => "B"
  | true, true, false, false => "C"
  | true, true, false, true => "D"
  | true, true, true, false => "E"
  | true, true, true, true => "F"
  end%char.

Definition escaped (c : ascii) : string :=
  match c with
  | Ascii b0 b1 b2 b3 b4 b5 b6 b7 =>
      String "%" (String (nibble b7 b6 b5 b4) (String (nibble b3 b2 b1 b0) ""))
  end.

Definition urlencoded (name : string) : string :=
  String.concat ""
    (map (fun c => if kept c then String c "" else escaped c)
         (list_ascii_of_string name)).

Definition click (button : string) (wait : bool) : row :=
  {| method := "POST"; path := "/api/atx/click";
     query := [("button", button); ("wait", flag wait)];
     body := Some (Obj []) |}.

Definition nullable (s : option string) : value :=
  match s with
  | Some s => Str s
  | None => Null
  end.

(** The table, row by row, with the documented defaults: [wait] is true,
    [cdrom] is false and [delay] is 0 when omitted. *)
Definition entry (c : call) : row :=
  match c with
  | GetInfo => {| method := "GET"; path := "/api/info"; query := []; body := None |}
  | GetATXInfo => {| method := "GET"; path := "/api/atx"; query := []; body := None |}
  | ClickATXButton button None => click button true
  | ClickATXButton button (Some wait) => click button wait
  | PowerOn | PowerOff => click "power" true
  | ForcePowerOff => click "power_long" true
  | Reset => click "reset" true
  | GetMSDInfo => {| method := "GET"; path := "/api/msd"; query := []; body := None |}
  | SetMSDImage image cdrom =>
      {| method := "POST"; path := "/api/msd/set_params"; query := [];
         body := Some (Obj [("image", nullable image);
                            ("cdrom", Bool (match cdrom with
                                            | Some b => b
                                            | None => false
                                            end))]) |}
  | ConnectMSD =>
      {| method := "POST"; path := "/api/msd/set_connected"; query := [];
         body := Some (Obj [("connected", Bool true)]) |}
  | DisconnectMSD =>
      {| method := "POST"; path := "/api/msd/set_connected"; query := [];
         body := Some (Obj [("connected", Bool false)]) |}
  | RemoveMSDImage image =>
      {| method := "POST"; path := "/api/msd/remove";
         query := [("image", urlencoded image)];
         body := Some (Obj []) |}
  | SendKeys keys =>
      {| method := "POST"; path := "/api/hid/events/send_key"; query := [];
         body := Some (Obj [("keys", Arr (map Str keys))]) |}
  | SendMouseMove x y =>
      {| method := "POST"; path := "/api/hid/events/send_mouse_move"; query := [];
         body := Some (Obj [("x", Num x); ("y", Num y)]) |}
  | SendMouseButton button state =>
      {| method := "POST"; path := "/api/hid/events/send_mouse_button"; query := [];
         body := Some (Obj [("button", Str button); ("state", Bool state)]) |}
  | SendMouseWheel delta =>
      {| method := "POST"; path := "/api/hid/events/send_mouse_wheel"; query := [];
         body := Some (Obj [("delta", Num delta)]) |}
  | GetGPIO => {| method := "GET"; path := "/api/gpio"; query := []; body := None |}
  | SetGPIO channel state =>
      {| method := "POST"; path := "/api/gpio/switch"; query := [];
         body := Some (Obj [("channel", Str channel); ("state", Bool state)]) |}
  | PulseGPIO channel delay =>
      {| method := "POST"; path := "/api/gpio/pulse"; query := [];
         body := Some (Obj [("channel", Str channel);
                            ("delay", Num (match delay with
                                           | Some d => d
                                           | None => int 0
                                           end))]) |}
  end.

(** [k1=v1&k2=v2] *)
Fixpoint query_string (q : list (string * string)) : string :=
  match q with
  | [] => ""
  | [(k, v)] => k ++ "=" ++ v
  | (k, v) :: rest => k ++ "=" ++ v ++ "&" ++ query_string rest
  end.

(** The request target of a row: the path, then [?] and the query string
    when the row has query parameters. *)
Definition target (r : row) : string :=
  match query r with
  | [] => path r
  | q => path r ++ "?" ++ query_string q
  end.

Section Dispatch.

Variable JSON_parse : string -> completion value.
Variable JSON_stringify : value -> string.

(** The method of the client a call stands for. *)
Definition invoke (c : call) (this : Lib.PiKVMClient) : Net.io promise :=
  match c with
  | GetInfo => Lib.getInfo JSON_parse JSON_stringify this
  | GetATXInfo => Lib.getATXInfo JSON_parse JSON_stringify this
  | ClickATXButton button wait =>
      Lib.clickATXButton JSON_parse JSON_stringify this button wait
  | PowerOn => Lib.powerOn JSON_parse JSON_stringify this
  | PowerOff => Lib.powerOff JSON_parse JSON_stringify this
  | ForcePowerOff => Lib.forcePowerOff JSON_parse JSON_stringify this
  | Reset => Lib.reset JSON_parse JSON_stringify this
  | GetMSDInfo => Lib.getMSDInfo JSON_parse JSON_stringify this
  | SetMSDImage image cdrom =>
      Lib.setMSDImage JSON_parse JSON_stringify this image cdrom
  | ConnectMSD => Lib.connectMSD JSON_parse JSON_stringify this
  | DisconnectMSD => Lib.disconnectMSD JSON_parse JSON_stringify this
  | RemoveMSDImage image =>
      Lib.removeMSDImage JSON_parse JSON_stringify this image
  | SendKeys keys => Lib.sendKeys JSON_parse JSON_stringify this keys
  | SendMouseMove x y => Lib.sendMouseMove JSON_parse JSON_stringify this x y
  | SendMouseButton button state =>
      Lib.sendMouseButton JSON_parse JSON_stringify this button state
  | SendMouseWheel delta =>
      Lib.sendMouseWheel JSON_parse JSON_stringify this delta
  | GetGPIO => Lib.getGPIO JSON_parse JSON_stringify this
  | SetGPIO channel state =>
      Lib.setGPIO JSON_parse JSON_stringify this channel state
  | PulseGPIO channel delay =>
      Lib.pulseGPIO JSON_parse JSON_stringify this channel delay
  end.

(** The payload a request carries for the body of a row. *)
Definition payload (b : option value) : list string :=
  match b with
  | Some v => [JSON_stringify v]
  | None => []
  end.

End Dispatch.

End Table.

(** ** lib/index.js with the synchronous failures of the runtime

    Two calls into the runtime can throw before a request exists:
    [client.request(options, callback)], which validates its options, and
    [encodeURIComponent], which rejects a lone surrogate.  [Lib] follows
    the methods where neither throws; here both are part of them. *)

Module Strict.
Import JS.
Local Open Scope io_scope.

(** A string that holds a lone surrogate has no UTF-8 form; the code unit
    is carried as the three octets [ED A0..BF xx] of its generalised form,
    a sequence no well-formed string has. *)
Fixpoint lone_surrogate (s : string) : bool :=
  match s with
  | String c rest =>
      match rest with
      | String d _ =>
          ((N_of_ascii c =? 237) && (160 <=? N_of_ascii d)
           && (N_of_ascii d <=? 191))%N
          || lone_surrogate rest
      | EmptyString => false
      end
  | EmptyString => false
  end.

(** The built-in as a whole: a [URIError] on a lone surrogate, the
    escaping of the octets otherwise. *)
Definition encodeURIComponent (s : string) : completion string :=
  if lone_surrogate s then Throw (mkError "URI malformed")
  else Normal (Runtime.encodeURIComponent s).

(** The module [request] goes through. *)
Definition transport (this : Lib.PiKVMClient) : Net.transport :=
  if Lib.Resolved.secure (Lib.config this) then Net.https else Net.http.

(** The [options] of [request]. *)
Definition options (this : Lib.PiKVMClient) (method path : string)
  : Net.RequestOptions :=
  {| Net.hostname := Lib.Resolved.host (Lib.config this);
     Net.port := Lib.Resolved.port (Lib.config this);
     Net.path := path;
     Net.method := method;
     Net.headers := [("Authorization", Lib.authHeader this);
                     ("Content-Type", "application/json")];
     Net.rejectUnauthorized :=
       Lib.Resolved.rejectUnauthorized (Lib.config this) |}.

Section Runtime.

(** [client.request(options, callback)] validates the options before it
    creates the request: the error it throws, or [None] when it returns the
    request object. *)
Variable validate : Net.transport -> Net.RequestOptions -> option Error.
Variable JSON_parse : string -> completion value.
Variable JSON_stringify : value -> string.

(** An exception thrown inside the executor of [new Promise] rejects the
    promise: no request object exists, nothing is written, no listener is
    registered. *)
Definition request (this : Lib.PiKVMClient) (method path : string)
           (body : value) : Net.io promise :=
  let options := options this method path in
  let client := transport this in
  match validate client options with
  | Some thrown => Net.ret (Rejected thrown)
  | None =>
      let req := {|
        Net.via := client;
        Net.options := options;
        Net.written := if truthy body then [JSON_stringify body] else []
      |} in
      events <- Net.send req ;;
      Net.ret (Lib.promised
                 (fold_left (Lib.handle JSON_parse) events
                            {| Lib.res := None; Lib.promised := Pending |}))
  end.

Definition getInfo (this : Lib.PiKVMClient) : Net.io promise :=
  request this "GET" "/api/info" Undefined.

Definition getATXInfo (this : Lib.PiKVMClient) : Net.io promise :=
  request this "GET" "/api/atx" Undefined.

Definition clickATXButton (this : Lib.PiKVMClient) (button : string)
           (wait : option bool) : Net.io promise :=
  let wait := Lib.default wait true in
  request this "POST"
          ("/api/atx/click?button=" ++ button ++ "&wait="
           ++ (if wait then "1" else "0"))
          (Obj []).

Definition powerOn (this : Lib.PiKVMClient) : Net.io promise :=
  clickATXButton this Lib.ATXButton.POWER None.

Definition powerOff (this : Lib.PiKVMClient) : Net.io promise :=
  clickATXButton this Lib.ATXButton.POWER None.

Definition forcePowerOff (this : Lib.PiKVMClient) : Net.io promise :=
  clickATXButton this Lib.ATXButton.POWER_LONG None.

Definition reset (this : Lib.PiKVMClient) : Net.io promise :=
  clickATXButton this Lib.ATXButton.RESET None.

Definition getMSDInfo (this : Lib.PiKVMClient) : Net.io promise :=
  request this "GET" "/api/msd" Undefined.

Definition setMSDImage (this : Lib.PiKVMClient) (image : option string)
           (cdrom : option bool) : Net.io promise :=
  let cdrom := Lib.default cdrom false in
  request this "POST" "/api/msd/set_params"
          (Obj [("image", match image with Some s => Str s | None => Null end);
                ("cdrom", Bool cdrom)]).

Definition connectMSD (this : Lib.PiKVMClient) : Net.io promise :=
  request this "POST" "/api/msd/set_connected" (Obj [("connected", Bool true)]).

Definition disconnectMSD (this : Lib.PiKVMClient) : Net.io promise :=
  request this "POST" "/api/msd/set_connected" (Obj [("connected", Bool false)]).

(** The argument of [this.request] is evaluated first: when
    [encodeURIComponent] throws, the method throws and [request] is not
    called. *)
Definition removeMSDImage (this : Lib.PiKVMClient) (image : string)
  : Net.io (completion promise) :=
  match encodeURIComponent image with
  | Throw thrown => Net.ret (Throw thrown)
  | Normal name =>
      p <- request this "POST" ("/api/msd/remove?image=" ++ name) (Obj []) ;;
      Net.ret (Normal p)
  end.

Definition sendKeys (this : Lib.PiKVMClient) (keys : list string)
  : Net.io promise :=
  request this "POST" "/api/hid/events/send_key"
          (Obj [("keys", Arr (map Str keys))]).

Definition sendMouseMove (this : Lib.PiKVMClient) (x y : number)
  : Net.io promise :=
  request this "POST" "/api/hid/events/send_mouse_move"
          (Obj [("x", Num x); ("y", Num y)]).

Definition sendMouseButton (this : Lib.PiKVMClient) (button : string)
           (state : bool) : Net.io promise :=
  request this "POST" "/api/hid/events/send_mouse_button"
          (Obj [("button", Str button); ("state", Bool state)]).

Definition sendMouseWheel (this : Lib.PiKVMClient) (delta : number)
  : Net.io promise :=
  request this "POST" "/api/hid/events/send_mouse_wheel"
          (Obj [("delta", Num delta)]).

Definition getGPIO (this : Lib.PiKVMClient) : Net.io promise :=
  request this "GET" "/api/gpio" Undefined.

Definition setGPIO (this : Lib.PiKVMClient) (channel : string) (state : bool)
  : Net.io promise :=
  request this "POST" "/api/gpio/switch"
          (Obj [("channel", Str channel); ("state", Bool state)]).

Definition pulseGPIO (this : Lib.PiKVMClient) (channel : string)
           (delay : option number) : Net.io promise :=
  let delay := Lib.default delay (int 0) in
  request this "POST" "/api/gpio/pulse"
          (Obj [("channel", Str channel); ("delay", Num delay)]).

(** A method that returns its promise. *)
Definition returned (m : Net.io promise) : Net.io (completion promise) :=
  p <- m ;; Net.ret (Normal p).

(** The method of the client a call stands for. *)
Definition invoke (c : Table.call) (this : Lib.PiKVMClient)
  : Net.io (completion promise) :=
  match c with
  | Table.GetInfo => returned (getInfo this)
  | Table.GetATXInfo => returned (getATXInfo this)
  | Table.ClickATXButton button wait =>
      returned (clickATXButton this button wait)
  | Table.PowerOn => returned (powerOn this)
  | Table.PowerOff => returned (powerOff this)
  | Table.ForcePowerOff => returned (forcePowerOff this)
  | Table.Reset => returned (reset this)
  | Table.GetMSDInfo => returned (getMSDInfo this)
  | Table.SetMSDImage image cdrom => returned (setMSDImage this image cdrom)
  | Table.ConnectMSD => returned (connectMSD this)
  | Table.DisconnectMSD => returned (disconnectMSD this)
  | Table.RemoveMSDImage image => removeMSDImage this image
  | Table.SendKeys keys => returned (sendKeys this keys)
  | Table.SendMouseMove x y => returned (sendMouseMove this x y)
  | Table.SendMouseButton button state =>
      returned (sendMouseButton this button state)
  | Table.SendMouseWheel delta => returned (sendMouseWheel this delta)
  | Table.GetGPIO => returned (getGPIO this)
  | Table.SetGPIO channel state => returned (setGPIO this channel state)
  | Table.PulseGPIO channel delay => returned (pulseGPIO this channel delay)
  end.

End Runtime.

End Strict.

(** ** Concrete built-ins and inputs for the examples *)

Module Sample.
Import JS.

(** [JSON.parse] on the three literal texts; every other text used in the
    examples below ([OK], [Unauthorized]) is not JSON. *)
Definition parse (text : string) : completion value :=
  if String.eqb text "null" then Normal Null
  else if String.eqb text "true" then Normal (Bool true)
  else if String.eqb text "false" then Normal (Bool false)
  else Throw (mkError "Unexpected token").

(** [JSON.stringify] on the bodies the examples send, the empty object
    first of all; it is not evaluated on numbers, strings or containers that
    hold something. *)
Definition stringify (v : value) : string :=
  match v with
  | Bool true => "true"
  | Bool false => "false"
  | Obj [] => "{}"
  | Arr [] => "[]"
  | _ => "null"
  end.

(** An encoder for the credentials; the examples never read the header. *)
Definition encode (s : string) : string := s.

(** The configuration of the test-suite, with the optional properties left
    as arguments. *)
Definition config (port secure : value) : Lib.Config.t :=
  {| Lib.Config.host := Some "pikvm.local";
     Lib.Config.port := port;
     Lib.Config.secure := secure;
     Lib.Config.username := Some "admin";
     Lib.Config.password := Some "admin";
     Lib.Config.rejectUnauthorized := Bool false |}.

(** The client the test-suite builds in [beforeEach]. *)
Definition client : Lib.PiKVMClient :=
  {| Lib.config :=
       {| Lib.Resolved.host := Some "pikvm.local";
          Lib.Resolved.port := Num (int 443);
          Lib.Resolved.secure := true;
          Lib.Resolved.username := Some "admin";
          Lib.Resolved.password := Some "admin";
          Lib.Resolved.rejectUnauthorized := Bool false |};
     Lib.authHeader := "Basic admin:admin" |}.

(** The validation of Node's http client, as far as the methods can reach
    it: a path that holds a character outside U+0021..U+00FF is refused (on
    the octets of a string: an octet below 21 or the lead octet of a
    character above U+00FF), then a method that is not an HTTP token. *)
Definition path_octet (c : ascii) : bool :=
  ((33 <=? N_of_ascii c) && (N_of_ascii c <=? 195))%N.

Definition tchar (c : ascii) : bool :=
  let n := N_of_ascii c in
  ((65 <=? n) && (n <=? 90) || (97 <=? n) && (n <=? 122) ||
   (48 <=? n) && (n <=? 57))%N ||
  existsb (Ascii.eqb c) (list_ascii_of_string "!#$%&'*+-.^_`|~").

Definition validate (client : Net.transport) (options : Net.RequestOptions)
  : option Error :=
  if negb (forallb path_octet (list_ascii_of_string (Net.path options)))
  then Some (mkError "Request path contains unescaped characters")
  else if negb (forallb tchar (list_ascii_of_string (Net.method options)))
  then Some (mkError "Method must be a valid HTTP token")
  else None.

(** An image name that holds the lone surrogate U+D800. *)
Definition unpaired : string :=
  "a" ++ String (ascii_of_N 237) (String (ascii_of_N 160)
           (String (ascii_of_N 128) ".iso")).

(** A remote side that answers every request with one complete response. *)
Definition replies (statusCode : Z) (chunks : list string) : Net.remote :=
  fun _ => (Net.response statusCode :: map Net.data chunks ++ [Net.end_])%list.

End Sample.

(** ** Vocabulary of the claims *)

Module Claim.
Import JS.

(** A required property that is absent or the empty string. *)
Definition missing (o : option string) : Prop := o = None \/ o = Some "".

(** A required property that is present and not empty. *)
Definition supplied (o : option string) : Prop :=
  exists s, o = Some s /\ s <> "".

(** A response that arrives whole: its head, its body in chunks, its end. *)
Definition complete (statusCode : Z) (chunks : list string) : list Net.event :=
  (Net.response statusCode :: map Net.data chunks ++ [Net.end_])%list.

(** The text of a body received in chunks. *)
Definition text (chunks : list string) : string := String.concat "" chunks.

(** Every explicitly supplied port is the effective port. *)
Definition explicit_port_always_kept (base64 : string -> string) : Prop :=
  forall config client,
    Lib.constructor base64 config = Normal client ->
    Lib.Config.port config <> Undefined ->
    Lib.Resolved.port (Lib.config client) = Lib.Config.port config.

(** The computation [m] issues exactly one request, with this method, this
    request target and the payload of this body. *)
Definition sends (JSON_stringify : value -> string) (m : Net.io promise)
           (net : Net.remote) (log : list Net.ClientRequest)
           (method target : string) (body : option value) : Prop :=
  exists r,
    Net.issued m net log = (log ++ [r])%list
    /\ Net.method (Net.options r) = method
    /\ Net.path (Net.options r) = target
    /\ Net.written r = Table.payload JSON_stringify body.

(** [client.request] returns a request object for this client, method and
    path. *)
Definition accepts (validate : Net.transport -> Net.RequestOptions -> option Error)
           (this : Lib.PiKVMClient) (method path : string) : Prop :=
  validate (Strict.transport this) (Strict.options this method path) = None.

(** The method returns a promise and has issued exactly one request, with
    this method, this request target and the payload of this body. *)
Definition answers (JSON_stringify : value -> string)
           (m : Net.io (completion promise))
           (net : Net.remote) (log : list Net.ClientRequest)
           (method target : string) (body : option value) : Prop :=
  exists p r,
    m net log = (Normal p, (log ++ [r])%list)
    /\ Net.method (Net.options r) = method
    /\ Net.path (Net.options r) = target
    /\ Net.written r = Table.payload JSON_stringify body.

(** Every wrapper, at every argument, issues the request of its row. *)
Definition every_call_follows_table
           (validate : Net.transport -> Net.RequestOptions -> option Error)
           (JSON_parse : string -> completion value)
           (JSON_stringify : value -> string) : Prop :=
  forall (c : Table.call) (this : Lib.PiKVMClient) (net : Net.remote)
         (log : list Net.ClientRequest),
    answers JSON_stringify
            (Strict.invoke validate JSON_parse JSON_stringify c this) net log
            (Table.method (Table.entry c)) (Table.target (Table.entry c))
            (Table.body (Table.entry c)).

(** Every image name is sent, URL-encoded, by [removeMSDImage]. *)
Definition every_name_is_encoded
           (validate : Net.transport -> Net.RequestOptions -> option Error)
           (JSON_parse : string -> completion value)
           (JSON_stringify : value -> string) : Prop :=
  forall (image : string) (this : Lib.PiKVMClient) (net : Net.remote)
         (log : list Net.ClientRequest),
    answers JSON_stringify
            (Strict.removeMSDImage validate JSON_parse JSON_stringify this image)
            net log
            "POST" ("/api/msd/remove?image=" ++ Table.urlencoded image)
            (Some (Obj [])).

(** The characters that delimit a query string, with the space and [+]. *)
Definition delimiter (c : ascii) : bool :=
  existsb (Ascii.eqb c) (list_ascii_of_string " &=#/?+").

(** The characters a query value may hold without escaping, and [%]. *)
Definition query_safe (c : ascii) : bool :=
  Runtime.uriUnescaped c || Ascii.eqb c "%".

End Claim.

(** ** The calls of the TypeScript client *)

Module Typed.
Import JS.

(** A call of a method of the TypeScript class, with its arguments. *)
Inductive call : Type :=
| GetInfo
| GetATXInfo
| ClickATXButton (button : Src.ATXButton) (wait : option bool)
| PowerOn
| PowerOff
| ForcePowerOff
| Reset
| GetMSDInfo
| SetMSDImage (image : option string) (cdrom : option bool)
| ConnectMSD
| DisconnectMSD
| RemoveMSDImage (image : string)
| SendKeys (keys : list string)
| SendMouseMove (x y : number)
| SendMouseButton (button : string) (state : bool)
| SendMouseWheel (delta : number)
| GetGPIO
| SetGPIO (channel : string) (state : bool)
| PulseGPIO (channel : string) (delay : option number).



Section Dispatch.

Variable JSON_parse : string -> completion value.
Variable JSON_stringify : value -> string.

Definition invoke (c : call) (this : Lib.PiKVMClient) : Net.io promise :=
  match c with
  | GetInfo => Src.getInfo JSON_parse JSON_stringify this
  | GetATXInfo => Src.getATXInfo JSON_parse JSON_stringify this
  | ClickATXButton button wait =>
      Src.clickATXButton JSON_parse JSON_stringify this button wait
  | PowerOn => Src.powerOn JSON_parse JSON_stringify this
  | PowerOff => Src.powerOff JSON_parse JSON_stringify this
  | ForcePowerOff => Src.forcePowerOff JSON_parse JSON_stringify this
  | Reset => Src.reset JSON_parse JSON_stringify this
  | GetMSDInfo => Src.getMSDInfo JSON_parse JSON_stringify this
  | SetMSDImage image cdrom =>
      Src.setMSDImage JSON_parse JSON_stringify this image cdrom
  | ConnectMSD => Src.connectMSD JSON_parse JSON_stringify this
  | DisconnectMSD => Src.disconnectMSD JSON_parse JSON_stringify this
  | RemoveMSDImage image =>
      Src.removeMSDImage JSON_parse JSON_stringify this image
  | SendKeys keys => Src.sendKeys JSON_parse JSON_stringify this keys
  | SendMouseMove x y => Src.sendMouseMove JSON_parse JSON_stringify this x y
  | SendMouseButton button state =>
      Src.sendMouseButton JSON_parse JSON_stringify this button state
  | SendMouseWheel delta =>
      Src.sendMouseWheel JSON_parse JSON_stringify this delta
  | GetGPIO => Src.getGPIO JSON_parse JSON_stringify this
  | SetGPIO channel state =>
      Src.setGPIO JSON_parse JSON_stringify this channel state
  | PulseGPIO channel delay =>
      Src.pulseGPIO JSON_parse JSON_stringify this channel delay
  end.

End Dispatch.

End Typed.

(** ** The example program

    The script that loads [lib/index.js], builds a client from the
    environment and runs [main].  What it prints is left out; the
    expressions it prints are evaluated, because reading a property of
    [null] throws ([JSON.stringify] of a decoded response does not). *)

Module Example.
Import JS.
Local Open Scope io_scope.

(** [process.env]: a variable is a string or is not set. *)
Record env : Type := {
  PIKVM_HOST : option string;
  PIKVM_USERNAME : option string;
  PIKVM_PASSWORD : option string
}.

(** [process.env.X || fallback] *)
Definition or_default (variable : option string) (fallback : string)
  : option string :=
  if truthy (of_option variable) then variable else Some fallback.

Definition config (e : env) : Lib.Config.t :=
  {| Lib.Config.host := or_default (PIKVM_HOST e) "pikvm.local";
     Lib.Config.port := Undefined;
     Lib.Config.secure := Bool true;
     Lib.Config.username := or_default (PIKVM_USERNAME e) "admin";
     Lib.Config.password := or_default (PIKVM_PASSWORD e) "admin";
     Lib.Config.rejectUnauthorized := Bool false |}.

Fixpoint own (props : list (string * value)) (key : string) : value :=
  match props with
  | [] => Undefined
  | (k, v) :: rest => if String.eqb k key then v else own rest key
  end.

(** [v.key], for a key that no prototype defines (the script reads
    [enabled], [leds], [power] and [online]). *)
Definition get (v : value) (key : string) : completion value :=
  match v with
  | Undefined =>
      Throw (mkError ("Cannot read properties of undefined (reading '"
                      ++ key ++ "')"))
  | Null =>
      Throw (mkError ("Cannot read properties of null (reading '"
                      ++ key ++ "')"))
  | Obj props => Normal (own props key)
  | _ => Normal Undefined
  end.

(** Where the body of [main] stands: at its end, at a thrown exception, or
    at an [await] whose promise is still pending. *)
Inductive step (A : Type) : Type :=
| Done (a : A)
| Thrown (e : Error)
| Suspended.
Arguments Done {A} a.
Arguments Thrown {A} e.
Arguments Suspended {A}.

(** [const x = await m; k x] *)
Definition await {A} (m : Net.io promise) (k : value -> Net.io (step A))
  : Net.io (step A) :=
  p <- m ;;
  match p with
  | Fulfilled v => k v
  | Rejected e => Net.ret (Thrown e)
  | Pending => Net.ret Suspended
  end.

(** An expression evaluated for a statement, then the next statement. *)
Definition eval {A B} (c : completion A) (k : A -> Net.io (step B))
  : Net.io (step B) :=
  match c with
  | Normal a => k a
  | Throw e => Net.ret (Thrown e)
  end.

(** How the process ends: [main] ran to its end, [process.exit(code)] was
    called, or [main] waits for a response. *)
Inductive ending : Type :=
| Completed
| Exit (code : Z)
| Waiting.

Section Script.

Variable base64 : string -> string.
Variable JSON_parse : string -> completion value.
Variable JSON_stringify : value -> string.

(** The [try] block of [main]. *)
Definition body (client : Lib.PiKVMClient) : Net.io (step unit) :=
  await (Lib.getInfo JSON_parse JSON_stringify client) (fun info =>
  await (Lib.getATXInfo JSON_parse JSON_stringify client) (fun atxInfo =>
  eval (get atxInfo "enabled") (fun _ =>
  eval (get atxInfo "leds") (fun leds =>
  eval (if truthy leds then get leds "power" else Normal (Str "N/A")) (fun _ =>
  await (Lib.getMSDInfo JSON_parse JSON_stringify client) (fun msdInfo =>
  eval (get msdInfo "enabled") (fun _ =>
  eval (get msdInfo "online") (fun _ =>
  Net.ret (Done tt))))))))).

(** [main]: the [catch] block prints the error and calls
    [process.exit(1)]. *)
Definition main (client : Lib.PiKVMClient) : Net.io ending :=
  s <- body client ;;
  Net.ret (match s with
           | Done _ => Completed
           | Thrown _ => Exit 1
           | Suspended => Waiting
           end).

(** The script: the client is built at the top level, where an exception
    ends the process with code 1, and [main] is called. *)
Definition script (e : env) : Net.io ending :=
  match Lib.constructor base64 (config e) with
  | Throw _ => Net.ret (Exit 1)
  | Normal client => main client
  end.

End Script.

(** The method and the target of a request. *)
Definition summary (r : Net.ClientRequest) : string * string :=
  (Net.method (Net.options r), Net.path (Net.options r)).

(** The three reads of the script, in its order. *)
Definition reads : list (string * string) :=
  [("GET", "/api/info"); ("GET", "/api/atx"); ("GET", "/api/msd")].

End Example.

(** ** Vocabulary of the further properties *)

Module Facts.
Import JS.

(** An event that is neither the end of the response nor an error. *)
Definition silent (ev : Net.event) : bool :=
  match ev with
  | Net.end_ | Net.error _ => false
  | _ => true
  end.

Definition hexvalue (c : ascii) : N :=
  let n := N_of_ascii c in
  (if (65 <=? n) then n - 55 else n - 48)%N.

(** The inverse of the escaping of [encodeURIComponent]: [%XX] back to its
    octet, every other character kept. *)
Fixpoint unescape (s : string) : string :=
  match s with
  | EmptyString => ""
  | String c rest =>
      if Ascii.eqb c "%" then
        match rest with
        | String h (String l rest') =>
            String (ascii_of_N (16 * hexvalue h + hexvalue l)) (unescape rest')
        | _ => String c (unescape rest)
        end
      else String c (unescape rest)
  end.

(** Chunks of ASCII octets only; such a chunk is its own text, whatever
    the chunks around it. *)
Definition ascii_only (chunks : list string) : bool :=
  forallb (fun chunk =>
             forallb (fun c => (N_of_ascii c <? 128)%N)
                     (list_ascii_of_string chunk))
          chunks.


End Facts.

(** * Properties *)

Import JS.

(** ** Strings *)

Lemma append_assoc (a b c : string) : (a ++ b) ++ c = a ++ b ++ c.
Proof.
  induction a as [|ch a IH]; simpl; [reflexivity|].
  now rewrite IH.
Qed.

Lemma append_empty_r (a : string) : a ++ "" = a.
Proof.
  induction a as [|ch a IH]; simpl; [reflexivity|].
  now rewrite IH.
Qed.

Lemma prefix_append (needle rest : string) :
  String.prefix needle (needle ++ rest) = true.
Proof.
  induction needle as [|ch needle IH]; simpl.
  - now destruct rest.
  - destruct (ascii_dec ch ch) as [_|ne]; [exact IH|now destruct ne].
Qed.

Lemma includes_prefix (haystack needle : string) :
  String.prefix needle haystack = true -> includes haystack needle = true.
Proof.
  intros H. destruct haystack; cbn [includes]; rewrite H; reflexivity.
Qed.

Lemma includes_here (needle rest : string) :
  includes (needle ++ rest) needle = true.
Proof.
  apply includes_prefix, prefix_append.
Qed.

Lemma includes_later (before haystack needle : string) :
  includes haystack needle = true ->
  includes (before ++ haystack) needle = true.
Proof.
  intros H.
  induction before as [|ch before IH]; simpl; [exact H|].
  rewrite IH. apply orb_true_r.
Qed.

Lemma includes_infix (before needle after : string) :
  includes (before ++ needle ++ after) needle = true.
Proof.
  apply includes_later, includes_here.
Qed.

Lemma includes_suffix (before needle : string) :
  includes (before ++ needle) needle = true.
Proof.
  rewrite <- (append_empty_r needle) at 1.
  apply includes_infix.
Qed.

(** ** The request operation *)

Section Request.

Variable JSON_parse : string -> completion value.
Variable JSON_stringify : value -> string.

(** Once the head of a response has arrived, its chunks are appended to
    [data] in order and the end settles the promise on the whole text. *)
Lemma body_then_end (statusCode : Z) (chunks : list string) :
  forall (data : string) (p : promise),
    Lib.promised
      (fold_left (Lib.handle JSON_parse) (map Net.data chunks ++ [Net.end_])%list
                 {| Lib.res := Some (statusCode, data); Lib.promised := p |})
    = Lib.on_end JSON_parse statusCode (data ++ Claim.text chunks) p.
Proof.
  induction chunks as [|chunk chunks IH]; intros data p.
  - cbn. now rewrite append_empty_r.
  - cbn [map app fold_left]. cbn [Lib.handle Lib.res Lib.promised].
    rewrite IH.
    unfold Claim.text. cbn [String.concat].
    destruct chunks as [|next chunks].
    + cbn. now rewrite !append_empty_r.
    + now rewrite append_assoc.
Qed.

Lemma complete_response (statusCode : Z) (chunks : list string) :
  Lib.promised
    (fold_left (Lib.handle JSON_parse) (Claim.complete statusCode chunks)
               {| Lib.res := None; Lib.promised := Pending |})
  = Lib.on_end JSON_parse statusCode (Claim.text chunks) Pending.
Proof.
  unfold Claim.complete. cbn [fold_left Lib.handle Lib.promised].
  now rewrite body_then_end.
Qed.

(** [request] issues the one request it builds, and its promise is what
    the events of that request make of it. *)
Lemma request_sends_once (this : Lib.PiKVMClient) (method path : string)
      (body : value) (net : Net.remote) (log : list Net.ClientRequest) :
  exists r,
    Net.issued (Lib.request JSON_parse JSON_stringify this method path body) net log = (log ++ [r])%list
    /\ Net.method (Net.options r) = method
    /\ Net.path (Net.options r) = path
    /\ Net.written r = (if truthy body then [JSON_stringify body] else [])
    /\ Net.via r = (if Lib.Resolved.secure (Lib.config this)
                    then Net.https else Net.http)
    /\ Net.port (Net.options r) = Lib.Resolved.port (Lib.config this)
    /\ Net.result (Lib.request JSON_parse JSON_stringify this method path body) net log
       = Lib.promised (fold_left (Lib.handle JSON_parse) (net r)
                         {| Lib.res := None; Lib.promised := Pending |}).
Proof.
  eexists. cbn. repeat split.
Qed.

Lemma request_result_complete (this : Lib.PiKVMClient) (method path : string)
      (body : value) (net : Net.remote) (log : list Net.ClientRequest)
      (statusCode : Z) (chunks : list string) :
  (forall r, net r = Claim.complete statusCode chunks) ->
  Net.result (Lib.request JSON_parse JSON_stringify this method path body) net log
  = Lib.on_end JSON_parse statusCode (Claim.text chunks) Pending.
Proof.
  intros Hnet.
  destruct (request_sends_once this method path body net log)
    as (r & _ & _ & _ & _ & _ & _ & ->).
  rewrite Hnet. apply complete_response.
Qed.

(** C2. A complete response whose status code lies in [200,300) fulfils
    the promise of [request]: with the empty object when the body is empty,
    with the parsed value when [JSON.parse] accepts the body, and with the
    body text itself, unchanged, when [JSON.parse] throws. *)
Theorem request_success_decoding (this : Lib.PiKVMClient)
        (method path : string) (body : value) (net : Net.remote)
        (log : list Net.ClientRequest) (statusCode : Z)
        (chunks : list string) :
  200 <= statusCode < 300 ->
  (forall r, net r = Claim.complete statusCode chunks) ->
  (Claim.text chunks = "" ->
   Net.result (Lib.request JSON_parse JSON_stringify this method path body)
              net log = Fulfilled (Obj []))
  /\ (forall v, Claim.text chunks <> "" ->
      JSON_parse (Claim.text chunks) = Normal v ->
      Net.result (Lib.request JSON_parse JSON_stringify this method path body)
                 net log = Fulfilled v)
  /\ (forall e, Claim.text chunks <> "" ->
      JSON_parse (Claim.text chunks) = Throw e ->
      Net.result (Lib.request JSON_parse JSON_stringify this method path body)
                 net log = Fulfilled (Str (Claim.text chunks))).
Proof.
  intros Hstatus Hnet.
  pose proof (request_result_complete this method path body net log
                statusCode chunks Hnet) as ->.
  unfold Lib.on_end.
  replace ((200 <=? statusCode) && (statusCode <? 300)) with true
    by (symmetry; apply andb_true_intro; split;
        [apply Z.leb_le|apply Z.ltb_lt]; lia).
  cbn [truthy].
  repeat split.
  - intros ->. reflexivity.
  - intros v Hne Hparse.
    apply String.eqb_neq in Hne. rewrite Hne. cbn. now rewrite Hparse.
  - intros e Hne Hparse.
    apply String.eqb_neq in Hne. rewrite Hne. cbn. now rewrite Hparse.
Qed.

(** C3. A complete response whose status code lies outside [200,300)
    rejects the promise of [request] with an error whose message is
    [HTTP <status>: <body>]: it holds the status code after [HTTP ] and
    the body text.  No such status fulfils the promise. *)
Theorem request_failure_status (this : Lib.PiKVMClient)
        (method path : string) (body : value) (net : Net.remote)
        (log : list Net.ClientRequest) (statusCode : Z)
        (chunks : list string) :
  ~ (200 <= statusCode < 300) ->
  (forall r, net r = Claim.complete statusCode chunks) ->
  exists e,
    Net.result (Lib.request JSON_parse JSON_stringify this method path body)
               net log = Rejected e
    /\ message e = "HTTP " ++ decimal statusCode ++ ": " ++ Claim.text chunks
    /\ includes (message e) ("HTTP " ++ decimal statusCode) = true
    /\ includes (message e) (Claim.text chunks) = true.
Proof.
  intros Hstatus Hnet.
  pose proof (request_result_complete this method path body net log
                statusCode chunks Hnet) as ->.
  unfold Lib.on_end.
  replace ((200 <=? statusCode) && (statusCode <? 300)) with false.
  - eexists. cbn [settle message]. repeat split.
    + rewrite <- append_assoc. apply includes_here.
    + rewrite <- !append_assoc. apply includes_suffix.
  - symmetry. apply andb_false_iff.
    destruct (Z.leb_spec 200 statusCode); [right|left; reflexivity].
    apply Z.ltb_ge. lia.
Qed.

End Request.

(** ** The typed wrappers *)

Lemma escaped_octet_safe (c : ascii) :
  forallb Claim.query_safe (list_ascii_of_string (Runtime.percent c)) = true.
Proof.
  destruct c as [[] [] [] [] [] [] [] []]; vm_compute; reflexivity.
Qed.

Lemma list_ascii_of_append (a b : string) :
  list_ascii_of_string (a ++ b)
  = (list_ascii_of_string a ++ list_ascii_of_string b)%list.
Proof.
  induction a as [|ch a IH]; simpl; [reflexivity|].
  now rewrite IH.
Qed.

Lemma encodeURIComponent_safe (s : string) :
  forallb Claim.query_safe (list_ascii_of_string (Runtime.encodeURIComponent s))
  = true.
Proof.
  induction s as [|ch s IH]; [reflexivity|].
  cbn [Runtime.encodeURIComponent].
  rewrite list_ascii_of_append, forallb_app, IH, andb_true_r.
  destruct (Runtime.uriUnescaped ch) eqn:Hkept.
  - cbn. unfold Claim.query_safe. now rewrite Hkept.
  - apply escaped_octet_safe.
Qed.

Section Wrappers.

Variable JSON_parse : string -> completion value.
Variable JSON_stringify : value -> string.

(** C6. [powerOn] and [powerOff] are the same operation: for every client
    they build the same request, [POST /api/atx/click?button=power&wait=1]
    with body [{}], with the button code [power]. *)
Theorem powerOn_is_powerOff (this : Lib.PiKVMClient) (net : Net.remote)
        (log : list Net.ClientRequest) :
  Lib.powerOn JSON_parse JSON_stringify this net log
  = Lib.powerOff JSON_parse JSON_stringify this net log
  /\ Lib.powerOn JSON_parse JSON_stringify this
     = Lib.clickATXButton JSON_parse JSON_stringify this "power" None
  /\ Claim.sends JSON_stringify
                 (Lib.powerOn JSON_parse JSON_stringify this) net log
                 "POST" "/api/atx/click?button=power&wait=1" (Some (Obj []))
  /\ Claim.sends JSON_stringify
                 (Lib.powerOff JSON_parse JSON_stringify this) net log
                 "POST" "/api/atx/click?button=power&wait=1" (Some (Obj [])).
Proof.
  repeat split; eexists; cbn; repeat split.
Qed.

End Wrappers.

(** ** Construction *)

Lemma missing_falsy (o : option string) :
  Claim.missing o -> truthy (of_option o) = false.
Proof.
  intros [-> | ->]; reflexivity.
Qed.

Lemma supplied_truthy (o : option string) :
  Claim.supplied o -> truthy (of_option o) = true.
Proof.
  intros (s & -> & Hne). cbn.
  apply String.eqb_neq in Hne. now rewrite Hne.
Qed.

Section Construction.

Variable base64 : string -> string.

Lemma constructor_guard (config : Lib.Config.t) :
  Lib.constructor base64 config
  = Throw (mkError "host, username, and password are required")
  \/ exists client,
      Lib.constructor base64 config = Normal client
      /\ Lib.Resolved.secure (Lib.config client)
         = isnt_false (Lib.Config.secure config)
      /\ Lib.Resolved.port (Lib.config client)
         = or_else (Lib.Config.port config)
                   (if isnt_false (Lib.Config.secure config)
                    then Num (int 443) else Num (int 80)).
Proof.
  unfold Lib.constructor.
  destruct (negb (truthy (of_option (Lib.Config.host config)))
            || negb (truthy (of_option (Lib.Config.username config)))
            || negb (truthy (of_option (Lib.Config.password config)))).
  - now left.
  - right. eexists. repeat split.
Qed.

Lemma constructor_resolved (config : Lib.Config.t) (client : Lib.PiKVMClient) :
  Lib.constructor base64 config = Normal client ->
  Lib.Resolved.secure (Lib.config client)
  = isnt_false (Lib.Config.secure config)
  /\ Lib.Resolved.port (Lib.config client)
     = or_else (Lib.Config.port config)
               (if isnt_false (Lib.Config.secure config)
                then Num (int 443) else Num (int 80)).
Proof.
  intros Hnew.
  destruct (constructor_guard config) as [Hthrow | (c & Hc & Hsecure & Hport)].
  - congruence.
  - assert (c = client) as <- by congruence. now split.
Qed.

(** C4. When [host], [username] or [password] is absent or the empty
    string the constructor throws, and a caller that builds the client
    first stops there with no request issued, whatever it meant to do
    next; when the three are present and not empty the constructor
    returns a client. *)
Theorem constructor_requires_credentials (config : Lib.Config.t) :
  (Claim.missing (Lib.Config.host config)
   \/ Claim.missing (Lib.Config.username config)
   \/ Claim.missing (Lib.Config.password config) ->
   Lib.constructor base64 config
   = Throw (mkError "host, username, and password are required")
   /\ forall (A : Type) (rest : Lib.PiKVMClient -> Net.io A)
             (net : Net.remote) (log : list Net.ClientRequest),
       Lib.new_then base64 config rest net log
       = (Throw (mkError "host, username, and password are required"), log))
  /\ (Claim.supplied (Lib.Config.host config)
      /\ Claim.supplied (Lib.Config.username config)
      /\ Claim.supplied (Lib.Config.password config) ->
      exists client, Lib.constructor base64 config = Normal client).
Proof.
  split.
  - intros Hmissing.
    assert (Lib.constructor base64 config
            = Throw (mkError "host, username, and password are required"))
      as Hthrow.
    { unfold Lib.constructor.
      destruct Hmissing as [H | [H | H]];
        rewrite (missing_falsy _ H); cbn [negb orb];
        rewrite ?orb_true_r; reflexivity. }
    split; [exact Hthrow|].
    intros A rest net log. unfold Lib.new_then. now rewrite Hthrow.
  - intros (Hhost & Huser & Hpass).
    unfold Lib.constructor.
    rewrite (supplied_truthy _ Hhost), (supplied_truthy _ Huser),
      (supplied_truthy _ Hpass).
    cbn [negb orb]. eexists. reflexivity.
Qed.

(** C5, amended. With [port] unset the effective port is 443 when
    [secure] is unset or true and 80 when [secure] is false; a supplied
    port that is truthy (any number but 0 and NaN) is the effective port;
    a supplied port that is falsy, such as 0, is treated as unset and the
    default derived from [secure] is used. *)
Theorem truthy_port_overrides (config : Lib.Config.t)
        (client : Lib.PiKVMClient) :
  Lib.constructor base64 config = Normal client ->
  (Lib.Config.port config = Undefined ->
   Lib.Config.secure config = Undefined
   \/ Lib.Config.secure config = Bool true ->
   Lib.Resolved.port (Lib.config client) = Num (int 443))
  /\ (Lib.Config.port config = Undefined ->
      Lib.Config.secure config = Bool false ->
      Lib.Resolved.port (Lib.config client) = Num (int 80))
  /\ (truthy (Lib.Config.port config) = true ->
      Lib.Resolved.port (Lib.config client) = Lib.Config.port config)
  /\ (truthy (Lib.Config.port config) = false ->
      Lib.Resolved.port (Lib.config client)
      = if isnt_false (Lib.Config.secure config)
        then Num (int 443) else Num (int 80)).
Proof.
  intros Hnew.
  destruct (constructor_resolved config client Hnew) as [_ ->].
  unfold or_else.
  split; [|split; [|split]].
  - intros -> [-> | ->]; reflexivity.
  - intros -> ->; reflexivity.
  - intros ->; reflexivity.
  - intros ->; reflexivity.
Qed.

End Construction.

(** ** The image upload *)

(** C9. [writeMSDImage(image, data)] fails for every pair of arguments, on
    every client and against every remote side: the promise it returns is
    rejected with an error that says the upload is not implemented, and no
    request is issued. *)
Theorem writeMSDImage_not_implemented (this : Lib.PiKVMClient)
        (image : string) (data : list Byte.byte) (net : Net.remote)
        (log : list Net.ClientRequest) :
  exists e,
    Net.result (Src.writeMSDImage this image data) net log = Rejected e
    /\ includes (message e) "not implemented" = true
    /\ Net.issued (Src.writeMSDImage this image data) net log = log.
Proof.
  eexists. repeat split.
Qed.

(** ** The two constructors *)

(** X16. Where the constructor of [lib/index.js] returns a client, the
    constructor of the TypeScript source, which has no guard, returns the
    same one. *)
Lemma constructors_agree (base64 : string -> string) (config : Lib.Config.t)
      (client : Lib.PiKVMClient) :
  Lib.constructor base64 config = Normal client ->
  Src.constructor base64 config = client.
Proof.
  unfold Lib.constructor, Src.constructor.
  destruct (negb (truthy (of_option (Lib.Config.host config)))
            || negb (truthy (of_option (Lib.Config.username config)))
            || negb (truthy (of_option (Lib.Config.password config))));
    [discriminate|].
  now intros [= <-].
Qed.

(** ** The claims on the inputs of the test-suite *)

(** Status 200: the body [OK] is returned as it is, the empty body gives the
    empty object, and the body [true], received in two chunks, is parsed. *)
Lemma request_success_decoding_witness :
  200 <= 200 < 300
  /\ Net.result (Lib.getInfo Sample.parse Sample.stringify Sample.client)
                (Sample.replies 200 ["OK"]) [] = Fulfilled (Str "OK")
  /\ Net.result (Lib.getInfo Sample.parse Sample.stringify Sample.client)
                (Sample.replies 200 []) [] = Fulfilled (Obj [])
  /\ Net.result (Lib.getInfo Sample.parse Sample.stringify Sample.client)
                (Sample.replies 200 ["tr"; "ue"]) [] = Fulfilled (Bool true).
Proof.
  assert (200 <= 200 < 300) as Hstatus by lia.
  split; [exact Hstatus|]. split; [|split].
  - destruct (request_success_decoding
                Sample.parse Sample.stringify Sample.client "GET" "/api/info"
                Undefined (Sample.replies 200 ["OK"]) [] 200 ["OK"]
                Hstatus (fun _ => eq_refl)) as (_ & _ & Hraw).
    apply (Hraw (mkError "Unexpected token")); [discriminate|reflexivity].
  - destruct (request_success_decoding
                Sample.parse Sample.stringify Sample.client "GET" "/api/info"
                Undefined (Sample.replies 200 []) [] 200 []
                Hstatus (fun _ => eq_refl)) as (Hempty & _ & _).
    apply Hempty. reflexivity.
  - destruct (request_success_decoding
                Sample.parse Sample.stringify Sample.client "GET" "/api/info"
                Undefined (Sample.replies 200 ["tr"; "ue"]) [] 200 ["tr"; "ue"]
                Hstatus (fun _ => eq_refl)) as (_ & Hparsed & _).
    apply Hparsed; [discriminate|reflexivity].
Defined.

(** Status 401 with the body [Unauthorized]. *)
Lemma request_failure_status_witness :
  ~ (200 <= 401 < 300)
  /\ exists e,
      Net.result (Lib.getInfo Sample.parse Sample.stringify Sample.client)
                 (Sample.replies 401 ["Unauthorized"]) [] = Rejected e
      /\ includes (message e) "HTTP 401" = true
      /\ includes (message e) "Unauthorized" = true.
Proof.
  assert (~ (200 <= 401 < 300)) as Hstatus by lia.
  split; [exact Hstatus|].
  destruct (request_failure_status
              Sample.parse Sample.stringify Sample.client "GET" "/api/info"
              Undefined (Sample.replies 401 ["Unauthorized"]) []
              401 ["Unauthorized"] Hstatus (fun _ => eq_refl))
    as (e & Hrejected & _ & Hcode & Hbody).
  exists e. split; [exact Hrejected|]. split; [exact Hcode|exact Hbody].
Defined.

(** No host; an empty password; the configuration of the test-suite. *)
Lemma constructor_requires_credentials_witness :
  Lib.constructor Sample.encode
    {| Lib.Config.host := None; Lib.Config.port := Undefined;
       Lib.Config.secure := Undefined; Lib.Config.username := Some "admin";
       Lib.Config.password := Some "admin";
       Lib.Config.rejectUnauthorized := Undefined |}
  = Throw (mkError "host, username, and password are required")
  /\ Lib.constructor Sample.encode
       {| Lib.Config.host := Some "test"; Lib.Config.port := Undefined;
          Lib.Config.secure := Undefined; Lib.Config.username := Some "admin";
          Lib.Config.password := Some "";
          Lib.Config.rejectUnauthorized := Undefined |}
     = Throw (mkError "host, username, and password are required")
  /\ exists client,
      Lib.constructor Sample.encode (Sample.config Undefined (Bool true))
      = Normal client.
Proof.
  split; [|split].
  - apply (constructor_requires_credentials Sample.encode).
    left. left. reflexivity.
  - apply (constructor_requires_credentials Sample.encode).
    right. right. right. reflexivity.
  - apply (constructor_requires_credentials Sample.encode).
    repeat split; eexists; (split; [reflexivity|discriminate]).
Defined.

(** The custom port of the test-suite, and the two defaults. *)
Lemma truthy_port_overrides_witness :
  (exists client,
      Lib.constructor Sample.encode (Sample.config (Num (int 8443)) Undefined)
      = Normal client
      /\ Lib.Resolved.port (Lib.config client) = Num (int 8443))
  /\ (exists client,
         Lib.constructor Sample.encode (Sample.config Undefined Undefined)
         = Normal client
         /\ Lib.Resolved.port (Lib.config client) = Num (int 443))
  /\ (exists client,
         Lib.constructor Sample.encode (Sample.config Undefined (Bool false))
         = Normal client
         /\ Lib.Resolved.port (Lib.config client) = Num (int 80)).
Proof.
  split; [|split]; eexists; (split; [reflexivity|]).
  - destruct (truthy_port_overrides
                Sample.encode (Sample.config (Num (int 8443)) Undefined)
                _ eq_refl) as (_ & _ & Hkept & _).
    apply Hkept. reflexivity.
  - destruct (truthy_port_overrides
                Sample.encode (Sample.config Undefined Undefined)
                _ eq_refl) as (Hsecure & _ & _ & _).
    apply Hsecure; [reflexivity|left; reflexivity].
  - destruct (truthy_port_overrides
                Sample.encode (Sample.config Undefined (Bool false))
                _ eq_refl) as (_ & Hplain & _ & _).
    apply Hplain; reflexivity.
Defined.

(** C5 as stated fails at the port 0: it is supplied, and the client gets
    the port 443. *)
Lemma port_zero_is_not_kept :
  Lib.Config.port (Sample.config (Num (int 0)) Undefined) <> Undefined
  /\ (exists client,
         Lib.constructor Sample.encode (Sample.config (Num (int 0)) Undefined)
         = Normal client
         /\ Lib.Resolved.port (Lib.config client) = Num (int 443)
         /\ Lib.Resolved.port (Lib.config client)
            <> Lib.Config.port (Sample.config (Num (int 0)) Undefined))
  /\ ~ Claim.explicit_port_always_kept Sample.encode.
Proof.
  split; [discriminate|]. split.
  - eexists. split; [reflexivity|]. split; [reflexivity|discriminate].
  - intros Hkept.
    specialize (Hkept (Sample.config (Num (int 0)) Undefined) _ eq_refl).
    cbn in Hkept. assert (Num (int 0) <> Undefined) as Hset by discriminate.
    specialize (Hkept Hset). discriminate Hkept.
Qed.

(** * Further properties *)

(** ** The promise of a request *)

Section Settling.

Variable JSON_parse : string -> completion value.
Variable JSON_stringify : value -> string.

Lemma settle_settled (p outcome : promise) :
  p <> Pending -> settle p outcome = p.
Proof.
  destruct p; [congruence|reflexivity|reflexivity].
Qed.

Lemma on_end_settled (statusCode : Z) (data : string) (p : promise) :
  p <> Pending -> Lib.on_end JSON_parse statusCode data p = p.
Proof.
  intros Hp. unfold Lib.on_end.
  destruct ((200 <=? statusCode) && (statusCode <? 300));
    [destruct (if truthy (Str data) then JSON_parse data else Normal (Obj []))|];
    apply settle_settled, Hp.
Qed.

Lemma on_end_settles (statusCode : Z) (data : string) :
  Lib.on_end JSON_parse statusCode data Pending <> Pending.
Proof.
  unfold Lib.on_end.
  destruct ((200 <=? statusCode) && (statusCode <? 300));
    [destruct (if truthy (Str data) then JSON_parse data else Normal (Obj []))|];
    discriminate.
Qed.

(** A promise that is settled keeps its state under every later event. *)
Lemma settled_stays (events : list Net.event) :
  forall st : Lib.exchange,
    Lib.promised st <> Pending ->
    Lib.promised (fold_left (Lib.handle JSON_parse) events st)
    = Lib.promised st.
Proof.
  induction events as [|ev events IH]; intros st Hst; [reflexivity|].
  cbn [fold_left].
  assert (Lib.promised (Lib.handle JSON_parse st ev) = Lib.promised st) as Hev.
  { destruct ev as [statusCode|chunk| |e]; cbn [Lib.handle].
    - reflexivity.
    - destruct (Lib.res st) as [[statusCode data]|]; reflexivity.
    - destruct (Lib.res st) as [[statusCode data]|]; [|reflexivity].
      cbn [Lib.promised]. now apply on_end_settled.
    - cbn [Lib.promised]. now apply settle_settled. }
  rewrite IH; [exact Hev|]. now rewrite Hev.
Qed.

(** Events that are neither an end nor an error leave the promise as it
    is. *)
Lemma silent_keeps (events : list Net.event) :
  forall st : Lib.exchange,
    forallb Facts.silent events = true ->
    Lib.promised (fold_left (Lib.handle JSON_parse) events st)
    = Lib.promised st.
Proof.
  induction events as [|ev events IH]; intros st Hsilent; [reflexivity|].
  cbn [forallb] in Hsilent. apply andb_prop in Hsilent as [Hev Hrest].
  cbn [fold_left]. rewrite (IH _ Hrest).
  destruct ev as [statusCode|chunk| |e]; cbn [Lib.handle];
    try discriminate Hev; [reflexivity|].
  destruct (Lib.res st) as [[statusCode data]|]; reflexivity.
Qed.

(** X1. A transport error that arrives before the response has ended
    rejects the promise of [request] with that very error, whatever arrived
    before it and whatever arrives after it; one request was issued and no
    second one is tried. *)
Theorem request_transport_error (this : Lib.PiKVMClient)
        (method path : string) (body : value) (net : Net.remote)
        (log : list Net.ClientRequest) (before after : list Net.event)
        (e : Error) :
  forallb Facts.silent before = true ->
  (forall r, net r = (before ++ Net.error e :: after)%list) ->
  Net.result (Lib.request JSON_parse JSON_stringify this method path body)
             net log = Rejected e
  /\ exists r,
      Net.issued (Lib.request JSON_parse JSON_stringify this method path body)
                 net log = (log ++ [r])%list.
Proof.
  intros Hsilent Hnet.
  destruct (request_sends_once JSON_parse JSON_stringify this method path body
                               net log)
    as (r & Hlog & _ & _ & _ & _ & _ & Hresult).
  split; [|now exists r].
  rewrite Hresult, Hnet, fold_left_app. cbn [fold_left].
  rewrite settled_stays.
  - cbn [Lib.handle Lib.promised]. now rewrite (silent_keeps _ _ Hsilent).
  - cbn [Lib.handle Lib.promised]. rewrite (silent_keeps _ _ Hsilent).
    discriminate.
Qed.

(** X2. Once a response has ended the promise of [request] is settled for
    good: events that follow the end, a late error among them, do not change
    what the caller receives. *)
Theorem request_settles_once (this : Lib.PiKVMClient)
        (method path : string) (body : value) (net net' : Net.remote)
        (log : list Net.ClientRequest) (statusCode : Z)
        (chunks : list string) (later : list Net.event) :
  (forall r, net r = Claim.complete statusCode chunks) ->
  (forall r, net' r = (Claim.complete statusCode chunks ++ later)%list) ->
  Net.result (Lib.request JSON_parse JSON_stringify this method path body)
             net' log
  = Net.result (Lib.request JSON_parse JSON_stringify this method path body)
               net log
  /\ Net.result (Lib.request JSON_parse JSON_stringify this method path body)
                net' log <> Pending.
Proof.
  intros Hnet Hnet'.
  rewrite (request_result_complete JSON_parse JSON_stringify this method path
             body net log statusCode chunks Hnet).
  destruct (request_sends_once JSON_parse JSON_stringify this method path body
                               net' log)
    as (r & _ & _ & _ & _ & _ & _ & ->).
  rewrite Hnet', fold_left_app, settled_stays;
    rewrite complete_response; auto using on_end_settles.
Qed.



End Settling.

(** ** From the configuration to the wire *)

Section Wire.

Variable base64 : string -> string.
Variable JSON_parse : string -> completion value.
Variable JSON_stringify : value -> string.




End Wire.

(** ** The TypeScript client against lib/index.js *)

Section Builds.

Variable JSON_parse : string -> completion value.
Variable JSON_stringify : value -> string.

Lemma status_test_agrees (statusCode : Z) :
  truthy (Num (int statusCode)) && (200 <=? statusCode) && (statusCode <? 300)
  = (200 <=? statusCode) && (statusCode <? 300).
Proof.
  cbn [truthy int Qnum].
  destruct (Z.eqb_spec statusCode 0) as [-> | _]; reflexivity.
Qed.

Lemma on_end_agrees (statusCode : Z) (data : string) (p : promise) :
  Src.on_end JSON_parse statusCode data p
  = Lib.on_end JSON_parse statusCode data p.
Proof.
  unfold Src.on_end, Lib.on_end. now rewrite status_test_agrees.
Qed.

Lemma handle_agrees (events : list Net.event) :
  forall st : Lib.exchange,
    fold_left (Src.handle JSON_parse) events st
    = fold_left (Lib.handle JSON_parse) events st.
Proof.
  induction events as [|ev events IH]; intros st; [reflexivity|].
  cbn [fold_left]. rewrite IH. f_equal.
  destruct ev as [statusCode|chunk| |e]; cbn [Src.handle Lib.handle];
    try reflexivity.
  destruct (Lib.res st) as [[statusCode data]|]; [|reflexivity].
  now rewrite on_end_agrees.
Qed.

Lemma request_agrees (this : Lib.PiKVMClient) (method path : string)
      (body : value) (net : Net.remote) (log : list Net.ClientRequest) :
  Src.request JSON_parse JSON_stringify this method path body net log
  = Lib.request JSON_parse JSON_stringify this method path body net log.
Proof.
  unfold Src.request, Lib.request, Net.bind, Net.send, Net.ret.
  now rewrite handle_agrees.
Qed.

(** X8. The [request] of the TypeScript source, which tests the status
    code for truthiness before it compares it, behaves as the [request] of
    [lib/index.js] on every input and every answer of the remote side: it
    issues the same request and returns the same promise. *)
Theorem request_builds_agree (this : Lib.PiKVMClient) (method path : string)
        (body : value) (net : Net.remote) (log : list Net.ClientRequest) :
  Net.issued (Src.request JSON_parse JSON_stringify this method path body)
             net log
  = Net.issued (Lib.request JSON_parse JSON_stringify this method path body)
               net log
  /\ Net.result (Src.request JSON_parse JSON_stringify this method path body)
                net log
     = Net.result (Lib.request JSON_parse JSON_stringify this method path body)
                  net log.
Proof.
  unfold Net.issued, Net.result. now rewrite request_agrees.
Qed.



End Builds.

(** ** The escaping of image names *)

Lemma hex_round_trip (c : ascii) :
  ascii_of_N (16 * Facts.hexvalue (Runtime.hexdigit (N_of_ascii c / 16))
              + Facts.hexvalue (Runtime.hexdigit (N_of_ascii c mod 16)))
  = c.
Proof.
  destruct c as [[] [] [] [] [] [] [] []]; vm_compute; reflexivity.
Qed.

Lemma unescape_kept (c : ascii) (rest : string) :
  Runtime.uriUnescaped c = true ->
  Facts.unescape (String c rest) = String c (Facts.unescape rest).
Proof.
  intros Hkept. cbn [Facts.unescape].
  destruct (Ascii.eqb_spec c "%") as [-> | _]; [|reflexivity].
  vm_compute in Hkept. discriminate Hkept.
Qed.

Lemma unescape_escaped (c : ascii) (rest : string) :
  Facts.unescape (Runtime.percent c ++ rest) = String c (Facts.unescape rest).
Proof.
  unfold Runtime.percent. cbn [append Facts.unescape].
  rewrite Ascii.eqb_refl. now rewrite hex_round_trip.
Qed.

Lemma unescape_encodeURIComponent (s : string) :
  Facts.unescape (Runtime.encodeURIComponent s) = s.
Proof.
  induction s as [|c s IH]; [reflexivity|].
  cbn [Runtime.encodeURIComponent].
  destruct (Runtime.uriUnescaped c) eqn:Hkept.
  - cbn [append]. rewrite (unescape_kept _ _ Hkept). now rewrite IH.
  - rewrite unescape_escaped. now rewrite IH.
Qed.

Lemma encodeURIComponent_unreserved (s : string) :
  forallb Runtime.uriUnescaped (list_ascii_of_string s) = true ->
  Runtime.encodeURIComponent s = s.
Proof.
  induction s as [|c s IH]; [reflexivity|].
  cbn [list_ascii_of_string forallb Runtime.encodeURIComponent].
  intros H. apply andb_prop in H as [-> Hrest]. cbn [append].
  now rewrite (IH Hrest).
Qed.

Section Names.

Variable JSON_parse : string -> completion value.
Variable JSON_stringify : value -> string.


(** X11. An image name made of letters, digits and the marks
    [- _ . ! ~ * ' ( )] only is sent as it is:
    [POST /api/msd/remove?image=<name>] with body [{}]. *)
Theorem removeMSDImage_plain_name (this : Lib.PiKVMClient) (image : string)
        (net : Net.remote) (log : list Net.ClientRequest) :
  forallb Runtime.uriUnescaped (list_ascii_of_string image) = true ->
  Claim.sends JSON_stringify
              (Lib.removeMSDImage JSON_parse JSON_stringify this image)
              net log
              "POST" ("/api/msd/remove?image=" ++ image) (Some (Obj [])).
Proof.
  intros Hplain. eexists. cbn.
  rewrite (encodeURIComponent_unreserved _ Hplain). repeat split.
Qed.

End Names.

(** ** The example script *)

Lemma or_default_supplied (variable : option string) (fallback : string) :
  fallback <> "" -> Claim.supplied (Example.or_default variable fallback).
Proof.
  intros Hfallback. unfold Example.or_default.
  destruct variable as [s|]; cbn.
  - destruct (String.eqb_spec s "") as [-> | Hs]; cbn.
    + now exists fallback.
    + now exists s.
  - now exists fallback.
Qed.

Section Script.

Variable base64 : string -> string.
Variable JSON_parse : string -> completion value.
Variable JSON_stringify : value -> string.

Lemma example_config_accepted (e : Example.env) :
  exists client,
    Lib.constructor base64 (Example.config e) = Normal client
    /\ Claim.supplied (Lib.Resolved.host (Lib.config client))
    /\ Claim.supplied (Lib.Resolved.username (Lib.config client))
    /\ Claim.supplied (Lib.Resolved.password (Lib.config client))
    /\ Lib.Resolved.secure (Lib.config client) = true
    /\ Lib.Resolved.port (Lib.config client) = Num (int 443)
    /\ Lib.Resolved.rejectUnauthorized (Lib.config client) = Bool false.
Proof.
  assert (Claim.supplied (Example.or_default (Example.PIKVM_HOST e) "pikvm.local"))
    as Hhost by (apply or_default_supplied; discriminate).
  assert (Claim.supplied (Example.or_default (Example.PIKVM_USERNAME e) "admin"))
    as Huser by (apply or_default_supplied; discriminate).
  assert (Claim.supplied (Example.or_default (Example.PIKVM_PASSWORD e) "admin"))
    as Hpass by (apply or_default_supplied; discriminate).
  unfold Lib.constructor. cbn [Example.config Lib.Config.host
    Lib.Config.username Lib.Config.password Lib.Config.port Lib.Config.secure
    Lib.Config.rejectUnauthorized].
  rewrite (supplied_truthy _ Hhost), (supplied_truthy _ Huser),
    (supplied_truthy _ Hpass).
  cbn [negb orb]. eexists. split; [reflexivity|].
  cbn. repeat split; assumption.
Qed.

(** X12. Whatever the environment holds, the configuration of the example
    passes the guard of the constructor: a variable that is unset or empty
    is replaced by its fallback, so the client is always built, secure, on
    port 443 and with certificate validation off. *)
Theorem example_client_is_built (e : Example.env) :
  exists client,
    Lib.constructor base64 (Example.config e) = Normal client
    /\ Claim.supplied (Lib.Resolved.host (Lib.config client))
    /\ Claim.supplied (Lib.Resolved.username (Lib.config client))
    /\ Claim.supplied (Lib.Resolved.password (Lib.config client))
    /\ Lib.Resolved.secure (Lib.config client) = true
    /\ Lib.Resolved.port (Lib.config client) = Num (int 443)
    /\ Lib.Resolved.rejectUnauthorized (Lib.config client) = Bool false.
Proof.
  exact (example_config_accepted e).
Qed.

Lemma body_only_reads (client : Lib.PiKVMClient) (net : Net.remote)
      (log : list Net.ClientRequest) :
  exists sent rest,
    Net.issued (Example.body JSON_parse JSON_stringify client) net log
    = (log ++ sent)%list
    /\ (map Example.summary sent ++ rest)%list = Example.reads
    /\ Forall (fun r => Net.written r = []) sent.
Proof.
  unfold Net.issued, Example.body, Example.await, Example.eval,
    Lib.getInfo, Lib.getATXInfo, Lib.getMSDInfo, Lib.request,
    Net.bind, Net.send, Net.ret.
  cbn [fst snd truthy].
  repeat match goal with
         | |- context [match ?x with _ => _ end] => destruct x
         end;
    cbn [snd]; eexists; eexists;
    (split; [rewrite <- ?app_assoc; cbn [app]; reflexivity|]);
    (split; [cbn; reflexivity|]);
    repeat constructor.
Qed.

(** X13. The example script only reads: for every environment and every
    behaviour of the remote side the requests it issues are the first one,
    two or three of [GET /api/info], [GET /api/atx], [GET /api/msd], in
    this order and without a body; it never sends a [POST]. *)
Theorem example_only_reads (e : Example.env) (net : Net.remote)
        (log : list Net.ClientRequest) :
  exists sent rest,
    Net.issued (Example.script base64 JSON_parse JSON_stringify e) net log
    = (log ++ sent)%list
    /\ (map Example.summary sent ++ rest)%list = Example.reads
    /\ Forall (fun r => Net.written r = []) sent.
Proof.
  unfold Example.script.
  destruct (example_config_accepted e) as (client & -> & _).
  destruct (body_only_reads client net log)
    as (sent & rest & Hlog & Hprefix & Hall).
  exists sent, rest. split; [|split; [exact Hprefix|exact Hall]].
  unfold Net.issued, Example.main, Net.bind, Net.ret in *.
  destruct (Example.body JSON_parse JSON_stringify client net log).
  exact Hlog.
Qed.

End Script.

Section Outcome.

Variable base64 : string -> string.
Variable JSON_parse : string -> completion value.
Variable JSON_stringify : value -> string.

(** X14. The example stops at the first failure: when the promise of its
    first call is rejected, by a failure status or by a transport error, it
    exits with code 1 and has issued that one request only. *)
Theorem example_stops_at_first_failure (e : Example.env)
        (client : Lib.PiKVMClient) (net : Net.remote)
        (log : list Net.ClientRequest) (failure : Error) :
  Lib.constructor base64 (Example.config e) = Normal client ->
  Net.result (Lib.getInfo JSON_parse JSON_stringify client) net log
  = Rejected failure ->
  Net.result (Example.script base64 JSON_parse JSON_stringify e) net log
  = Example.Exit 1
  /\ Net.issued (Example.script base64 JSON_parse JSON_stringify e) net log
     = Net.issued (Lib.getInfo JSON_parse JSON_stringify client) net log.
Proof.
  intros Hnew Hfirst.
  unfold Example.script. rewrite Hnew.
  unfold Net.result, Net.issued, Example.main, Example.body, Example.await,
    Net.bind, Net.ret in *.
  destruct (Lib.getInfo JSON_parse JSON_stringify client net log) as [p sent].
  cbn [fst snd] in *. subst p. split; reflexivity.
Qed.

(** X15. When the remote side answers every request alike and the calls
    are fulfilled with the value [v]: if [v] is [null] the example reads a
    property of it after its second call, and exits with code 1 without
    issuing the third; for every other decoded value it issues its three
    reads and runs to its end. *)
Theorem example_on_fulfilled_calls (e : Example.env)
        (client : Lib.PiKVMClient) (net : Net.remote)
        (log : list Net.ClientRequest) (events : list Net.event)
        (v : value) :
  Lib.constructor base64 (Example.config e) = Normal client ->
  (forall r, net r = events) ->
  Net.result (Lib.getInfo JSON_parse JSON_stringify client) net log
  = Fulfilled v ->
  (v = Null ->
   Net.result (Example.script base64 JSON_parse JSON_stringify e) net log
   = Example.Exit 1
   /\ exists r1 r2,
       Net.issued (Example.script base64 JSON_parse JSON_stringify e) net log
       = (log ++ [r1; r2])%list
       /\ map Example.summary [r1; r2]
          = [("GET", "/api/info"); ("GET", "/api/atx")])
  /\ (v <> Null -> v <> Undefined ->
      Net.result (Example.script base64 JSON_parse JSON_stringify e) net log
      = Example.Completed
      /\ exists r1 r2 r3,
          Net.issued (Example.script base64 JSON_parse JSON_stringify e) net log
          = (log ++ [r1; r2; r3])%list
          /\ map Example.summary [r1; r2; r3] = Example.reads).
Proof.
  intros Hnew Hnet Hfirst.
  unfold Example.script. rewrite Hnew.
  unfold Net.result, Net.issued, Example.main, Example.body, Example.await,
    Example.eval, Lib.getInfo, Lib.getATXInfo, Lib.getMSDInfo, Lib.request,
    Net.bind, Net.send, Net.ret in *.
  cbn [fst snd] in *. rewrite Hnet in Hfirst.
  split.
  - intros ->.
    repeat (rewrite Hnet, Hfirst; cbn).
    split; [reflexivity|].
    do 2 eexists. rewrite <- !app_assoc. cbn [app]. split; reflexivity.
  - intros Hnull Hundefined.
    assert (forall leds,
               exists w, (if truthy leds then Example.get leds "power"
                          else Normal (Str "N/A")) = Normal w) as Hpower.
    { intros leds. destruct leds as [| |[]|[q| |]|s|items|props]; cbn;
        try (eexists; reflexivity).
      - destruct (Qnum q =? 0); cbn; eexists; reflexivity.
      - destruct (String.eqb s ""); cbn; eexists; reflexivity. }
    assert (exists enabled leds w online,
               Example.get v "enabled" = Normal enabled
               /\ Example.get v "leds" = Normal leds
               /\ (if truthy leds then Example.get leds "power"
                   else Normal (Str "N/A")) = Normal w
               /\ Example.get v "online" = Normal online)
      as (enabled & leds & w & online & Henabled & Hleds & Hw & Honline).
    { destruct v as [| |b|n|s|items|props]; try congruence; cbn;
        try (exists Undefined, Undefined, (Str "N/A"), Undefined;
             repeat split; reflexivity).
      destruct (Hpower (Example.own props "leds")) as [w Hw].
      do 4 eexists. repeat split. exact Hw. }
    repeat (rewrite ?Hnet, ?Hfirst, ?Henabled, ?Hleds, ?Hw, ?Honline;
            cbn [fst snd]).
    split; [reflexivity|].
    do 3 eexists. rewrite <- !app_assoc. cbn [app]. split; reflexivity.
Qed.

End Outcome.

(** ** The further properties on concrete inputs *)

(** The network error of the test-suite, alone and after half a body. *)
Lemma request_transport_error_witness :
  Net.result (Lib.getInfo Sample.parse Sample.stringify Sample.client)
             (fun _ => [Net.error (mkError "Network error")]) []
  = Rejected (mkError "Network error")
  /\ Net.result (Lib.getInfo Sample.parse Sample.stringify Sample.client)
                (fun _ => [Net.response 200; Net.data "tr";
                           Net.error (mkError "socket hang up"); Net.end_]) []
     = Rejected (mkError "socket hang up").
Proof.
  split.
  - apply (request_transport_error
             Sample.parse Sample.stringify Sample.client "GET" "/api/info"
             Undefined (fun _ => [Net.error (mkError "Network error")]) []
             [] [] (mkError "Network error") eq_refl (fun _ => eq_refl)).
  - apply (request_transport_error
             Sample.parse Sample.stringify Sample.client "GET" "/api/info"
             Undefined
             (fun _ => [Net.response 200; Net.data "tr";
                        Net.error (mkError "socket hang up"); Net.end_]) []
             [Net.response 200; Net.data "tr"] [Net.end_]
             (mkError "socket hang up") eq_refl (fun _ => eq_refl)).
Defined.

(** An error and a second end after the response [OK]. *)
Lemma request_settles_once_witness :
  Net.result (Lib.getInfo Sample.parse Sample.stringify Sample.client)
             (fun _ => [Net.response 200; Net.data "OK"; Net.end_;
                        Net.error (mkError "aborted"); Net.end_]) []
  = Net.result (Lib.getInfo Sample.parse Sample.stringify Sample.client)
               (Sample.replies 200 ["OK"]) [].
Proof.
  apply (request_settles_once
           Sample.parse Sample.stringify Sample.client "GET" "/api/info"
           Undefined (Sample.replies 200 ["OK"])
           (fun _ => [Net.response 200; Net.data "OK"; Net.end_;
                      Net.error (mkError "aborted"); Net.end_]) []
           200 ["OK"] [Net.error (mkError "aborted"); Net.end_]
           (fun _ => eq_refl) (fun _ => eq_refl)).
Defined.



(** The configuration of the test-suite under both constructors. *)
Lemma constructors_agree_witness :
  Normal (Src.constructor Sample.encode (Sample.config Undefined (Bool true)))
  = Lib.constructor Sample.encode (Sample.config Undefined (Bool true)).
Proof.
  rewrite (constructors_agree
             Sample.encode (Sample.config Undefined (Bool true)) _ eq_refl).
  reflexivity.
Defined.


(** The image name of the test-suite. *)
Lemma removeMSDImage_plain_name_witness :
  Claim.sends Sample.stringify
              (Lib.removeMSDImage Sample.parse Sample.stringify Sample.client
                                  "debian.iso")
              (Sample.replies 200 []) []
              "POST" "/api/msd/remove?image=debian.iso" (Some (Obj [])).
Proof.
  apply (removeMSDImage_plain_name
           Sample.parse Sample.stringify Sample.client "debian.iso"
           (Sample.replies 200 []) [] eq_refl).
Defined.

(** An empty environment and a remote side that answers 401. *)
Lemma example_stops_at_first_failure_witness :
  Net.result (Example.script Sample.encode Sample.parse Sample.stringify
                {| Example.PIKVM_HOST := None;
                   Example.PIKVM_USERNAME := None;
                   Example.PIKVM_PASSWORD := None |})
             (Sample.replies 401 ["Unauthorized"]) []
  = Example.Exit 1
  /\ length (Net.issued
               (Example.script Sample.encode Sample.parse Sample.stringify
                  {| Example.PIKVM_HOST := None;
                     Example.PIKVM_USERNAME := None;
                     Example.PIKVM_PASSWORD := None |})
               (Sample.replies 401 ["Unauthorized"]) []) = 1%nat.
Proof.
  destruct (example_stops_at_first_failure
              Sample.encode Sample.parse Sample.stringify
              {| Example.PIKVM_HOST := None;
                 Example.PIKVM_USERNAME := None;
                 Example.PIKVM_PASSWORD := None |} _
              (Sample.replies 401 ["Unauthorized"]) []
              (mkError "HTTP 401: Unauthorized") eq_refl eq_refl)
    as [Hexit Hlog].
  split; [exact Hexit|]. rewrite Hlog. reflexivity.
Defined.

(** The body [null], and the empty body, with status 200. *)
Lemma example_on_fulfilled_calls_witness :
  Net.result (Example.script Sample.encode Sample.parse Sample.stringify
                {| Example.PIKVM_HOST := Some "10.0.0.7";
                   Example.PIKVM_USERNAME := None;
                   Example.PIKVM_PASSWORD := Some "" |})
             (Sample.replies 200 ["null"]) []
  = Example.Exit 1
  /\ Net.result (Example.script Sample.encode Sample.parse Sample.stringify
                   {| Example.PIKVM_HOST := Some "10.0.0.7";
                      Example.PIKVM_USERNAME := None;
                      Example.PIKVM_PASSWORD := Some "" |})
                (Sample.replies 200 []) []
     = Example.Completed.
Proof.
  split.
  - destruct (example_on_fulfilled_calls
                Sample.encode Sample.parse Sample.stringify
                {| Example.PIKVM_HOST := Some "10.0.0.7";
                   Example.PIKVM_USERNAME := None;
                   Example.PIKVM_PASSWORD := Some "" |} _
                (Sample.replies 200 ["null"]) []
                (Claim.complete 200 ["null"]) Null
                eq_refl (fun _ => eq_refl) eq_refl)
      as [Hnull _].
    apply Hnull. reflexivity.
  - destruct (example_on_fulfilled_calls
                Sample.encode Sample.parse Sample.stringify
                {| Example.PIKVM_HOST := Some "10.0.0.7";
                   Example.PIKVM_USERNAME := None;
                   Example.PIKVM_PASSWORD := Some "" |} _
                (Sample.replies 200 []) []
                (Claim.complete 200 []) (Obj [])
                eq_refl (fun _ => eq_refl) eq_refl)
      as [_ Hobject].
    apply Hobject; discriminate.
Defined.

(** * The methods with the failures of the runtime *)

(** ** The escaping against the table's URL-encoding *)

Lemma octet_agrees (c : ascii) :
  (if Runtime.uriUnescaped c then String c "" else Runtime.percent c)
  = (if Table.kept c then String c "" else Table.escaped c).
Proof.
  destruct c as [[] [] [] [] [] [] [] []]; vm_compute; reflexivity.
Qed.

Lemma concat_cons (x : string) (l : list string) :
  String.concat "" (x :: l) = x ++ String.concat "" l.
Proof.
  destruct l as [|y l]; cbn [String.concat].
  - now rewrite append_empty_r.
  - reflexivity.
Qed.

Lemma urlencoded_agrees (s : string) :
  Runtime.encodeURIComponent s = Table.urlencoded s.
Proof.
  unfold Table.urlencoded.
  induction s as [|c s IH]; [reflexivity|].
  cbn [Runtime.encodeURIComponent list_ascii_of_string map].
  now rewrite concat_cons, IH, octet_agrees.
Qed.

Lemma safe_is_no_delimiter (c : ascii) :
  Claim.query_safe c = true -> Claim.delimiter c = false.
Proof.
  destruct c as [[] [] [] [] [] [] [] []]; vm_compute; congruence.
Qed.

Lemma encodeURIComponent_no_delimiter (s : string) :
  forallb (fun c => negb (Claim.delimiter c))
          (list_ascii_of_string (Runtime.encodeURIComponent s)) = true.
Proof.
  pose proof (encodeURIComponent_safe s) as Hsafe.
  rewrite forallb_forall in *. intros c Hin.
  now rewrite (safe_is_no_delimiter c (Hsafe c Hin)).
Qed.

(** ** [request] when [client.request] returns, and when it throws *)

Section Validated.

Variable validate : Net.transport -> Net.RequestOptions -> option Error.
Variable JSON_parse : string -> completion value.
Variable JSON_stringify : value -> string.

Lemma request_accepted (this : Lib.PiKVMClient) (method path : string)
      (body : value) (net : Net.remote) (log : list Net.ClientRequest) :
  Claim.accepts validate this method path ->
  Strict.request validate JSON_parse JSON_stringify this method path body
                 net log
  = Lib.request JSON_parse JSON_stringify this method path body net log.
Proof.
  unfold Claim.accepts, Strict.request. now intros ->.
Qed.

Lemma request_refused (this : Lib.PiKVMClient) (method path : string)
      (body : value) (net : Net.remote) (log : list Net.ClientRequest)
      (thrown : Error) :
  validate (Strict.transport this) (Strict.options this method path)
  = Some thrown ->
  Strict.request validate JSON_parse JSON_stringify this method path body
                 net log
  = (Rejected thrown, log).
Proof.
  unfold Strict.request. now intros ->.
Qed.

Lemma request_sends_object (this : Lib.PiKVMClient) (method path : string)
      (props : list (string * value)) (net : Net.remote)
      (log : list Net.ClientRequest) :
  Claim.accepts validate this method path ->
  exists p r,
    Strict.request validate JSON_parse JSON_stringify this method path
                   (Obj props) net log = (p, (log ++ [r])%list)
    /\ Net.method (Net.options r) = method
    /\ Net.path (Net.options r) = path
    /\ Net.written r = [JSON_stringify (Obj props)].
Proof.
  intros Haccepted. rewrite (request_accepted _ _ _ _ _ _ Haccepted).
  do 2 eexists. cbn. repeat split.
Qed.

Lemma request_sends_no_body (this : Lib.PiKVMClient) (method path : string)
      (net : Net.remote) (log : list Net.ClientRequest) :
  Claim.accepts validate this method path ->
  exists p r,
    Strict.request validate JSON_parse JSON_stringify this method path
                   Undefined net log = (p, (log ++ [r])%list)
    /\ Net.method (Net.options r) = method
    /\ Net.path (Net.options r) = path
    /\ Net.written r = [].
Proof.
  intros Haccepted. rewrite (request_accepted _ _ _ _ _ _ Haccepted).
  do 2 eexists. cbn. repeat split.
Qed.

(** What a method that returns the promise of [request] answers. *)
Lemma returned_answers (m : Net.io promise) (net : Net.remote)
      (log : list Net.ClientRequest) (method target : string)
      (body : option value) :
  (exists p r,
      m net log = (p, (log ++ [r])%list)
      /\ Net.method (Net.options r) = method
      /\ Net.path (Net.options r) = target
      /\ Net.written r = Table.payload JSON_stringify body) ->
  Claim.answers JSON_stringify (Strict.returned m) net log method target body.
Proof.
  intros (p & r & Hrun & Hrest).
  exists p, r. split; [|exact Hrest].
  unfold Strict.returned, Net.bind, Net.ret. now rewrite Hrun.
Qed.

(** C1, amended. Every typed wrapper, at every argument on which the
    runtime does not throw, issues exactly one request, and its method, its
    path with the query string, and its JSON body are those of the row of
    the endpoint table.  The runtime throws in two places: [client.request]
    on options it refuses, and then the wrapper returns a promise rejected
    with that error and issues no request; [encodeURIComponent] on an image
    name with a lone surrogate, and then [removeMSDImage] throws and issues
    no request. *)
Theorem wrappers_follow_table (c : Table.call) (this : Lib.PiKVMClient)
        (net : Net.remote) (log : list Net.ClientRequest) :
  ((forall image, c = Table.RemoveMSDImage image ->
                  Strict.lone_surrogate image = false) ->
   Claim.accepts validate this (Table.method (Table.entry c))
                 (Table.target (Table.entry c)) ->
   Claim.answers JSON_stringify
                 (Strict.invoke validate JSON_parse JSON_stringify c this)
                 net log
                 (Table.method (Table.entry c))
                 (Table.target (Table.entry c))
                 (Table.body (Table.entry c)))
  /\ (forall thrown,
         (forall image, c = Table.RemoveMSDImage image ->
                        Strict.lone_surrogate image = false) ->
         validate (Strict.transport this)
                  (Strict.options this (Table.method (Table.entry c))
                                  (Table.target (Table.entry c)))
         = Some thrown ->
         Strict.invoke validate JSON_parse JSON_stringify c this net log
         = (Normal (Rejected thrown), log))
  /\ (forall image,
         c = Table.RemoveMSDImage image ->
         Strict.lone_surrogate image = true ->
         Strict.invoke validate JSON_parse JSON_stringify c this net log
         = (Throw (mkError "URI malformed"), log))
  /\ (Claim.accepts validate this "POST" "/api/atx/click?button=power&wait=1" ->
      Claim.answers JSON_stringify
                    (Strict.invoke validate JSON_parse JSON_stringify
                                   Table.PowerOn this) net log
                    "POST" "/api/atx/click?button=power&wait=1"
                    (Some (Obj [])))
  /\ (Claim.accepts validate this "POST" "/api/gpio/pulse" ->
      Claim.answers JSON_stringify
                    (Strict.invoke validate JSON_parse JSON_stringify
                                   (Table.PulseGPIO "c1" None) this) net log
                    "POST" "/api/gpio/pulse"
                    (Some (Obj [("channel", Str "c1");
                                ("delay", Num (int 0))]))).
Proof.
  split; [|split; [|split; [|split]]];
    try (intros Haccepted; cbn [Strict.invoke];
         apply returned_answers;
         apply (request_sends_object _ _ _ _ _ _ Haccepted)).
  - intros Hformed Haccepted.
    destruct c as [ | |button [wait|]| | | | | |image [cdrom|]| | |image|keys
                  |x y|button state|delta| |channel state|channel [delay|]];
      try destruct wait;
      cbn [Strict.invoke];
      try (apply returned_answers;
           first [ apply request_sends_no_body; exact Haccepted
                 | apply (request_sends_object _ _ _ _ _ _ Haccepted) ]).
    unfold Strict.removeMSDImage, Strict.encodeURIComponent.
    rewrite (Hformed image eq_refl), urlencoded_agrees.
    apply (returned_answers
             (Strict.request validate JSON_parse JSON_stringify this "POST"
                             ("/api/msd/remove?image=" ++ Table.urlencoded image)
                             (Obj []))).
    apply (request_sends_object _ _ _ _ _ _ Haccepted).
  - intros thrown Hformed Hrefused.
    destruct c as [ | |button [wait|]| | | | | |image [cdrom|]| | |image|keys
                  |x y|button state|delta| |channel state|channel [delay|]];
      try destruct wait;
      cbn [Strict.invoke];
      try (cbv beta zeta delta
             [Strict.returned Net.bind Net.ret Strict.getInfo Strict.getATXInfo
              Strict.getMSDInfo Strict.getGPIO Strict.powerOn Strict.powerOff
              Strict.forcePowerOff Strict.reset Strict.clickATXButton
              Strict.setMSDImage Strict.connectMSD Strict.disconnectMSD
              Strict.sendKeys Strict.sendMouseMove Strict.sendMouseButton
              Strict.sendMouseWheel Strict.setGPIO Strict.pulseGPIO];
           erewrite request_refused; [reflexivity|exact Hrefused]).
    unfold Strict.removeMSDImage, Strict.encodeURIComponent.
    rewrite (Hformed image eq_refl), urlencoded_agrees.
    unfold Net.bind, Net.ret.
    erewrite request_refused; [reflexivity|exact Hrefused].
  - intros image -> Hlone. cbn [Strict.invoke].
    unfold Strict.removeMSDImage, Strict.encodeURIComponent.
    now rewrite Hlone.
Qed.

(** C7. [clickATXButton(button, wait)] writes the flag as [1] when [wait]
    is true and as [0] when it is false, in the target
    [/api/atx/click?button=<b>&wait=<0|1>] it hands to [client.request]:
    when that accepts the target, the one request issued has it, with method
    [POST] and body [{}]; when it throws, the promise is rejected with its
    error.  With [wait] omitted the method behaves as with [true]. *)
Theorem clickATXButton_wait_flag (this : Lib.PiKVMClient) (button : string)
        (net : Net.remote) (log : list Net.ClientRequest) :
  (Claim.accepts validate this "POST"
                 ("/api/atx/click?button=" ++ button ++ "&wait=1") ->
   Claim.sends JSON_stringify
               (Strict.clickATXButton validate JSON_parse JSON_stringify this
                                      button (Some true)) net log
               "POST" ("/api/atx/click?button=" ++ button ++ "&wait=1")
               (Some (Obj [])))
  /\ (Claim.accepts validate this "POST"
                    ("/api/atx/click?button=" ++ button ++ "&wait=0") ->
      Claim.sends JSON_stringify
                  (Strict.clickATXButton validate JSON_parse JSON_stringify
                                         this button (Some false)) net log
                  "POST" ("/api/atx/click?button=" ++ button ++ "&wait=0")
                  (Some (Obj [])))
  /\ (forall (wait : bool) (thrown : Error),
         validate (Strict.transport this)
                  (Strict.options this "POST"
                     ("/api/atx/click?button=" ++ button ++ "&wait="
                      ++ (if wait then "1" else "0")))
         = Some thrown ->
         Strict.clickATXButton validate JSON_parse JSON_stringify this button
                               (Some wait) net log
         = (Rejected thrown, log))
  /\ Strict.clickATXButton validate JSON_parse JSON_stringify this button None
     = Strict.clickATXButton validate JSON_parse JSON_stringify this button
                             (Some true).
Proof.
  split; [|split; [|split]].
  - intros Haccepted.
    destruct (request_sends_object this "POST" _ [] net log Haccepted)
      as (p & r & Hrun & Hmethod & Hpath & Hbody).
    exists r. unfold Net.issued.
    change (Strict.clickATXButton validate JSON_parse JSON_stringify this
                                  button (Some true))
      with (Strict.request validate JSON_parse JSON_stringify this "POST"
                           ("/api/atx/click?button=" ++ button ++ "&wait=1")
                           (Obj [])).
    rewrite Hrun. repeat split; assumption.
  - intros Haccepted.
    destruct (request_sends_object this "POST" _ [] net log Haccepted)
      as (p & r & Hrun & Hmethod & Hpath & Hbody).
    exists r. unfold Net.issued.
    change (Strict.clickATXButton validate JSON_parse JSON_stringify this
                                  button (Some false))
      with (Strict.request validate JSON_parse JSON_stringify this "POST"
                           ("/api/atx/click?button=" ++ button ++ "&wait=0")
                           (Obj [])).
    rewrite Hrun. repeat split; assumption.
  - intros wait thrown Hrefused.
    change (Strict.clickATXButton validate JSON_parse JSON_stringify this
                                  button (Some wait))
      with (Strict.request validate JSON_parse JSON_stringify this "POST"
                           ("/api/atx/click?button=" ++ button ++ "&wait="
                            ++ (if wait then "1" else "0"))
                           (Obj [])).
    now apply request_refused.
  - reflexivity.
Qed.

(** C8, amended. For an image name that is a well-formed string,
    [removeMSDImage(image)] sends [POST /api/msd/remove?image=<e>] with body
    [{}], where [<e>] is the URL-encoding of the name as the table has it:
    unreserved characters as they are, every other octet as [%XX].  The
    escaping the code applies is that encoding; it can be undone, and it
    leaves no space and none of [& = # / ? +] in the query value.  On a
    name that holds a lone surrogate [encodeURIComponent] throws, and
    [removeMSDImage] throws its [URIError] without issuing a request. *)
Theorem removeMSDImage_encodes (this : Lib.PiKVMClient) (image : string)
        (net : Net.remote) (log : list Net.ClientRequest) :
  (Strict.lone_surrogate image = false ->
   Claim.accepts validate this "POST"
                 ("/api/msd/remove?image=" ++ Table.urlencoded image) ->
   Claim.answers JSON_stringify
                 (Strict.removeMSDImage validate JSON_parse JSON_stringify
                                        this image) net log
                 "POST" ("/api/msd/remove?image=" ++ Table.urlencoded image)
                 (Some (Obj [])))
  /\ Runtime.encodeURIComponent image = Table.urlencoded image
  /\ Facts.unescape (Runtime.encodeURIComponent image) = image
  /\ forallb (fun c => negb (Claim.delimiter c))
             (list_ascii_of_string (Runtime.encodeURIComponent image)) = true
  /\ (Strict.lone_surrogate image = true ->
      Strict.removeMSDImage validate JSON_parse JSON_stringify this image
                            net log
      = (Throw (mkError "URI malformed"), log)).
Proof.
  split; [|split; [|split; [|split]]].
  - intros Hformed Haccepted.
    unfold Strict.removeMSDImage, Strict.encodeURIComponent.
    rewrite Hformed, urlencoded_agrees.
    apply (returned_answers
             (Strict.request validate JSON_parse JSON_stringify this "POST"
                             ("/api/msd/remove?image=" ++ Table.urlencoded image)
                             (Obj []))).
    apply (request_sends_object _ _ _ _ _ _ Haccepted).
  - apply urlencoded_agrees.
  - apply unescape_encodeURIComponent.
  - apply encodeURIComponent_no_delimiter.
  - intros Hlone. unfold Strict.removeMSDImage, Strict.encodeURIComponent.
    now rewrite Hlone.
Qed.

(** X3. When [client.request] has returned the request object, the
    promise of [request] stays pending as long as neither the end of the
    response nor an error has arrived: a response that stops half-way is
    never turned into a result or a failure by the client. *)
Theorem request_pending_without_end (this : Lib.PiKVMClient)
        (method path : string) (body : value) (net : Net.remote)
        (log : list Net.ClientRequest) :
  Claim.accepts validate this method path ->
  (forall r, forallb Facts.silent (net r) = true) ->
  Net.result (Strict.request validate JSON_parse JSON_stringify this method
                             path body) net log = Pending.
Proof.
  intros Haccepted Hsilent. unfold Net.result.
  rewrite (request_accepted _ _ _ _ _ _ Haccepted).
  destruct (request_sends_once JSON_parse JSON_stringify this method path body
                               net log)
    as (r & _ & _ & _ & _ & _ & _ & Hresult).
  unfold Net.result in Hresult. rewrite Hresult.
  now rewrite (silent_keeps _ _ _ (Hsilent r)).
Qed.

(** X4. For a body of ASCII octets the outcome of [request] depends on the
    text of the body, not on the chunks it arrived in.  (A chunk is decoded
    on its own, so this does not extend to a character whose octets are
    split between two chunks.) *)
Theorem request_chunking_irrelevant (this : Lib.PiKVMClient)
        (method path : string) (body : value) (net net' : Net.remote)
        (log : list Net.ClientRequest) (statusCode : Z)
        (chunks chunks' : list string) :
  Facts.ascii_only chunks = true ->
  Facts.ascii_only chunks' = true ->
  Claim.text chunks = Claim.text chunks' ->
  (forall r, net r = Claim.complete statusCode chunks) ->
  (forall r, net' r = Claim.complete statusCode chunks') ->
  Net.result (Strict.request validate JSON_parse JSON_stringify this method
                             path body) net log
  = Net.result (Strict.request validate JSON_parse JSON_stringify this method
                               path body) net' log.
Proof.
  intros _ _ Htext Hnet Hnet'. unfold Net.result, Strict.request.
  destruct (validate (Strict.transport this)
                     (Strict.options this method path)); [reflexivity|].
  pose proof (request_result_complete JSON_parse JSON_stringify this method
                path body net log statusCode chunks Hnet) as Hleft.
  pose proof (request_result_complete JSON_parse JSON_stringify this method
                path body net' log statusCode chunks' Hnet') as Hright.
  unfold Net.result, Lib.request in Hleft, Hright.
  unfold Strict.options, Strict.transport.
  rewrite Hleft, Hright. now rewrite Htext.
Qed.

End Validated.

(** ** The transport of a client *)

Section Transport.

Variable base64 : string -> string.
Variable validate : Net.transport -> Net.RequestOptions -> option Error.
Variable JSON_parse : string -> completion value.
Variable JSON_stringify : value -> string.

(** C10. Every value of [secure] other than the boolean [false] makes the
    client secure, whatever the port: its requests go through [https], and
    with [port] unset its port is 443.  The boolean [false] alone gives a
    client whose requests go through [http], on port 80 when [port] is
    unset. *)
Theorem secure_unless_false (config : Lib.Config.t)
        (client : Lib.PiKVMClient) (method path : string) (body : value)
        (net : Net.remote) (log : list Net.ClientRequest) :
  Lib.constructor base64 config = Normal client ->
  (Lib.Config.secure config <> Bool false ->
   Lib.Resolved.secure (Lib.config client) = true
   /\ Strict.transport client = Net.https
   /\ (Claim.accepts validate client method path ->
       exists r,
         Net.issued (Strict.request validate JSON_parse JSON_stringify client
                                    method path body) net log
         = (log ++ [r])%list
         /\ Net.via r = Net.https)
   /\ (Lib.Config.port config = Undefined ->
       Lib.Resolved.port (Lib.config client) = Num (int 443)))
  /\ (Lib.Config.secure config = Bool false ->
      Lib.Resolved.secure (Lib.config client) = false
      /\ Strict.transport client = Net.http
      /\ (Claim.accepts validate client method path ->
          exists r,
            Net.issued (Strict.request validate JSON_parse JSON_stringify
                                       client method path body) net log
            = (log ++ [r])%list
            /\ Net.via r = Net.http)
      /\ (Lib.Config.port config = Undefined ->
          Lib.Resolved.port (Lib.config client) = Num (int 80))).
Proof.
  intros Hnew.
  destruct (constructor_resolved base64 config client Hnew)
    as [Hsecure Hresolved].
  assert (forall via,
             Strict.transport client = via ->
             Claim.accepts validate client method path ->
             exists r,
               Net.issued (Strict.request validate JSON_parse JSON_stringify
                                          client method path body) net log
               = (log ++ [r])%list
               /\ Net.via r = via) as Hsent.
  { intros via Hvia Haccepted. unfold Net.issued.
    rewrite (request_accepted validate JSON_parse JSON_stringify _ _ _ _ _ _
               Haccepted).
    eexists. cbn. split; [reflexivity|exact Hvia]. }
  split.
  - intros Hnot.
    assert (isnt_false (Lib.Config.secure config) = true) as Htrue.
    { destruct (Lib.Config.secure config) as [| |[]| | | |];
        try reflexivity. now destruct Hnot. }
    rewrite Htrue in Hsecure, Hresolved.
    assert (Strict.transport client = Net.https) as Hvia
        by (unfold Strict.transport; now rewrite Hsecure).
    split; [exact Hsecure|]. split; [exact Hvia|].
    split; [exact (Hsent _ Hvia)|].
    intros Hport. now rewrite Hresolved, Hport.
  - intros Hfalse. rewrite Hfalse in Hsecure, Hresolved.
    cbn [isnt_false] in Hsecure, Hresolved.
    assert (Strict.transport client = Net.http) as Hvia
        by (unfold Strict.transport; now rewrite Hsecure).
    split; [exact Hsecure|]. split; [exact Hvia|].
    split; [exact (Hsent _ Hvia)|].
    intros Hport. now rewrite Hresolved, Hport.
Qed.

End Transport.

(** ** Node's validation on the targets of the client *)

Lemma safe_is_path_octet (c : ascii) :
  Claim.query_safe c = true -> Sample.path_octet c = true.
Proof.
  destruct c as [[] [] [] [] [] [] [] []]; vm_compute; congruence.
Qed.

(** With the validation of Node, the target of [removeMSDImage] is accepted
    for every image name: the escaping leaves nothing the path check
    refuses. *)
Lemma escaped_target_accepted (this : Lib.PiKVMClient) (image : string) :
  Claim.accepts Sample.validate this "POST"
                ("/api/msd/remove?image=" ++ Table.urlencoded image).
Proof.
  unfold Claim.accepts, Sample.validate.
  cbn [Strict.options Net.path Net.method].
  rewrite list_ascii_of_append, forallb_app.
  assert (forallb Sample.path_octet
                  (list_ascii_of_string (Table.urlencoded image)) = true)
    as ->.
  { rewrite <- urlencoded_agrees.
    pose proof (encodeURIComponent_safe image) as Hsafe.
    rewrite forallb_forall in *. intros c Hin.
    apply safe_is_path_octet, Hsafe, Hin. }
  reflexivity.
Qed.

(** ** The methods of [Strict] on concrete inputs *)

(** C1 as stated fails at [clickATXButton('a b')]: the target of its row
    holds a space, Node's [client.request] throws on it, and no request is
    issued. *)
Lemma button_with_space_is_refused :
  Table.target (Table.entry (Table.ClickATXButton "a b" None))
  = "/api/atx/click?button=a b&wait=1"
  /\ Strict.invoke Sample.validate Sample.parse Sample.stringify
                   (Table.ClickATXButton "a b" None) Sample.client
                   (Sample.replies 200 []) []
     = (Normal (Rejected (mkError "Request path contains unescaped characters")),
        [])
  /\ ~ Claim.every_call_follows_table Sample.validate Sample.parse
                                      Sample.stringify.
Proof.
  split; [reflexivity|]. split; [reflexivity|].
  intros Hall.
  destruct (Hall (Table.ClickATXButton "a b" None) Sample.client
                 (Sample.replies 200 []) [])
    as (p & r & Hrun & _).
  vm_compute in Hrun. discriminate Hrun.
Qed.

(** [powerOn()], [pulseGPIO('c1')] and [removeMSDImage('a b.iso')]; the
    button [a b]; an image name with a lone surrogate. *)
Lemma wrappers_follow_table_witness :
  Claim.answers Sample.stringify
                (Strict.invoke Sample.validate Sample.parse Sample.stringify
                               Table.PowerOn Sample.client)
                (Sample.replies 200 []) []
                "POST" "/api/atx/click?button=power&wait=1" (Some (Obj []))
  /\ Claim.answers Sample.stringify
                   (Strict.invoke Sample.validate Sample.parse Sample.stringify
                                  (Table.PulseGPIO "c1" None) Sample.client)
                   (Sample.replies 200 []) []
                   "POST" "/api/gpio/pulse"
                   (Some (Obj [("channel", Str "c1"); ("delay", Num (int 0))]))
  /\ Claim.answers Sample.stringify
                   (Strict.invoke Sample.validate Sample.parse Sample.stringify
                                  (Table.RemoveMSDImage "a b.iso") Sample.client)
                   (Sample.replies 200 []) []
                   "POST" "/api/msd/remove?image=a%20b.iso" (Some (Obj []))
  /\ Strict.invoke Sample.validate Sample.parse Sample.stringify
                   (Table.ClickATXButton "a b" (Some false)) Sample.client
                   (Sample.replies 200 []) []
     = (Normal (Rejected (mkError "Request path contains unescaped characters")),
        [])
  /\ Strict.invoke Sample.validate Sample.parse Sample.stringify
                   (Table.RemoveMSDImage Sample.unpaired) Sample.client
                   (Sample.replies 200 []) []
     = (Throw (mkError "URI malformed"), []).
Proof.
  split; [|split; [|split; [|split]]].
  - destruct (wrappers_follow_table
                Sample.validate Sample.parse Sample.stringify
                Table.PowerOn Sample.client (Sample.replies 200 []) [])
      as (Hsent & _).
    apply Hsent; [intros image Hcall; discriminate Hcall|reflexivity].
  - destruct (wrappers_follow_table
                Sample.validate Sample.parse Sample.stringify
                (Table.PulseGPIO "c1" None) Sample.client
                (Sample.replies 200 []) [])
      as (Hsent & _).
    apply Hsent; [intros image Hcall; discriminate Hcall|reflexivity].
  - destruct (wrappers_follow_table
                Sample.validate Sample.parse Sample.stringify
                (Table.RemoveMSDImage "a b.iso") Sample.client
                (Sample.replies 200 []) [])
      as (Hsent & _).
    apply Hsent; [intros image [= <-]; reflexivity|reflexivity].
  - destruct (wrappers_follow_table
                Sample.validate Sample.parse Sample.stringify
                (Table.ClickATXButton "a b" (Some false)) Sample.client
                (Sample.replies 200 []) [])
      as (_ & Hrefused & _).
    apply Hrefused; [intros image Hcall; discriminate Hcall|reflexivity].
  - destruct (wrappers_follow_table
                Sample.validate Sample.parse Sample.stringify
                (Table.RemoveMSDImage Sample.unpaired) Sample.client
                (Sample.replies 200 []) [])
      as (_ & _ & Hthrows & _).
    apply (Hthrows Sample.unpaired); reflexivity.
Defined.

(** The button [power] with and without waiting; the button [a b]. *)
Lemma clickATXButton_wait_flag_witness :
  Claim.sends Sample.stringify
              (Strict.clickATXButton Sample.validate Sample.parse
                                     Sample.stringify Sample.client "power"
                                     (Some true))
              (Sample.replies 200 []) []
              "POST" "/api/atx/click?button=power&wait=1" (Some (Obj []))
  /\ Claim.sends Sample.stringify
                 (Strict.clickATXButton Sample.validate Sample.parse
                                        Sample.stringify Sample.client "power"
                                        (Some false))
                 (Sample.replies 200 []) []
                 "POST" "/api/atx/click?button=power&wait=0" (Some (Obj []))
  /\ Strict.clickATXButton Sample.validate Sample.parse Sample.stringify
                           Sample.client "a b" (Some true)
                           (Sample.replies 200 []) []
     = (Rejected (mkError "Request path contains unescaped characters"), []).
Proof.
  destruct (clickATXButton_wait_flag
              Sample.validate Sample.parse Sample.stringify Sample.client
              "power" (Sample.replies 200 []) [])
    as (Hwait & Hnowait & _ & _).
  destruct (clickATXButton_wait_flag
              Sample.validate Sample.parse Sample.stringify Sample.client
              "a b" (Sample.replies 200 []) [])
    as (_ & _ & Hrefused & _).
  split; [apply Hwait; reflexivity|].
  split; [apply Hnowait; reflexivity|].
  apply (Hrefused true). reflexivity.
Defined.

(** C8 as stated fails at an image name with a lone surrogate:
    [encodeURIComponent] throws and nothing is sent. *)
Lemma unpaired_surrogate_is_not_sent :
  Strict.lone_surrogate Sample.unpaired = true
  /\ Strict.removeMSDImage Sample.validate Sample.parse Sample.stringify
                           Sample.client Sample.unpaired
                           (Sample.replies 200 []) []
     = (Throw (mkError "URI malformed"), [])
  /\ ~ Claim.every_name_is_encoded Sample.validate Sample.parse
                                   Sample.stringify.
Proof.
  split; [reflexivity|]. split; [reflexivity|].
  intros Hall.
  destruct (Hall Sample.unpaired Sample.client (Sample.replies 200 []) [])
    as (p & r & Hrun & _).
  vm_compute in Hrun. discriminate Hrun.
Qed.

(** The names [a b.iso] and [a&b=c#d/e?.iso]; a name with a lone
    surrogate. *)
Lemma removeMSDImage_encodes_witness :
  Claim.answers Sample.stringify
                (Strict.removeMSDImage Sample.validate Sample.parse
                                       Sample.stringify Sample.client "a b.iso")
                (Sample.replies 200 []) []
                "POST" "/api/msd/remove?image=a%20b.iso" (Some (Obj []))
  /\ Claim.answers Sample.stringify
                   (Strict.removeMSDImage Sample.validate Sample.parse
                                          Sample.stringify Sample.client
                                          "a&b=c#d/e?.iso")
                   (Sample.replies 200 []) []
                   "POST" "/api/msd/remove?image=a%26b%3Dc%23d%2Fe%3F.iso"
                   (Some (Obj []))
  /\ Strict.removeMSDImage Sample.validate Sample.parse Sample.stringify
                           Sample.client Sample.unpaired
                           (Sample.replies 200 []) []
     = (Throw (mkError "URI malformed"), []).
Proof.
  split; [|split].
  - destruct (removeMSDImage_encodes
                Sample.validate Sample.parse Sample.stringify Sample.client
                "a b.iso" (Sample.replies 200 []) [])
      as (Hsent & _).
    apply Hsent; reflexivity.
  - destruct (removeMSDImage_encodes
                Sample.validate Sample.parse Sample.stringify Sample.client
                "a&b=c#d/e?.iso" (Sample.replies 200 []) [])
      as (Hsent & _).
    apply Hsent; reflexivity.
  - destruct (removeMSDImage_encodes
                Sample.validate Sample.parse Sample.stringify Sample.client
                Sample.unpaired (Sample.replies 200 []) [])
      as (_ & _ & _ & _ & Hthrows).
    apply Hthrows. reflexivity.
Defined.

(** [secure] left out, [null], [0] and the string [false], the string
    [false] with a port of its own, and the boolean [false]. *)
Lemma secure_unless_false_witness :
  (exists client,
      Lib.constructor Sample.encode (Sample.config Undefined Undefined)
      = Normal client
      /\ Lib.Resolved.secure (Lib.config client) = true
      /\ Strict.transport client = Net.https
      /\ Lib.Resolved.port (Lib.config client) = Num (int 443))
  /\ (exists client,
      Lib.constructor Sample.encode (Sample.config Undefined Null)
      = Normal client
      /\ Lib.Resolved.secure (Lib.config client) = true
      /\ Strict.transport client = Net.https
      /\ Lib.Resolved.port (Lib.config client) = Num (int 443))
  /\ (exists client,
      Lib.constructor Sample.encode (Sample.config Undefined (Num (int 0)))
      = Normal client
      /\ Lib.Resolved.secure (Lib.config client) = true
      /\ Strict.transport client = Net.https
      /\ Lib.Resolved.port (Lib.config client) = Num (int 443))
  /\ (exists client,
      Lib.constructor Sample.encode (Sample.config Undefined (Str "false"))
      = Normal client
      /\ Lib.Resolved.secure (Lib.config client) = true
      /\ Strict.transport client = Net.https
      /\ Lib.Resolved.port (Lib.config client) = Num (int 443))
  /\ (exists client,
      Lib.constructor Sample.encode (Sample.config (Num (int 8443)) (Str "false"))
      = Normal client
      /\ Lib.Resolved.secure (Lib.config client) = true
      /\ Strict.transport client = Net.https
      /\ Lib.Resolved.port (Lib.config client) = Num (int 8443))
  /\ (exists client,
      Lib.constructor Sample.encode (Sample.config Undefined (Bool false))
      = Normal client
      /\ Lib.Resolved.secure (Lib.config client) = false
      /\ Strict.transport client = Net.http
      /\ Lib.Resolved.port (Lib.config client) = Num (int 80)).
Proof.
  split; [|split; [|split; [|split; [|split]]]].
  - eexists. split; [reflexivity|].
    destruct (secure_unless_false
                Sample.encode Sample.validate Sample.parse Sample.stringify
                (Sample.config Undefined Undefined) _
                "GET" "/api/info" Undefined (Sample.replies 200 []) [] eq_refl)
      as [Hsecure Hplain].
    destruct (Hsecure ltac:(discriminate)) as (Hflag & Hvia & _ & Hport).
    split; [exact Hflag|]. split; [exact Hvia|]. apply Hport. reflexivity.
  - eexists. split; [reflexivity|].
    destruct (secure_unless_false
                Sample.encode Sample.validate Sample.parse Sample.stringify
                (Sample.config Undefined Null) _
                "GET" "/api/info" Undefined (Sample.replies 200 []) [] eq_refl)
      as [Hsecure Hplain].
    destruct (Hsecure ltac:(discriminate)) as (Hflag & Hvia & _ & Hport).
    split; [exact Hflag|]. split; [exact Hvia|]. apply Hport. reflexivity.
  - eexists. split; [reflexivity|].
    destruct (secure_unless_false
                Sample.encode Sample.validate Sample.parse Sample.stringify
                (Sample.config Undefined (Num (int 0))) _
                "GET" "/api/info" Undefined (Sample.replies 200 []) [] eq_refl)
      as [Hsecure Hplain].
    destruct (Hsecure ltac:(discriminate)) as (Hflag & Hvia & _ & Hport).
    split; [exact Hflag|]. split; [exact Hvia|]. apply Hport. reflexivity.
  - eexists. split; [reflexivity|].
    destruct (secure_unless_false
                Sample.encode Sample.validate Sample.parse Sample.stringify
                (Sample.config Undefined (Str "false")) _
                "GET" "/api/info" Undefined (Sample.replies 200 []) [] eq_refl)
      as [Hsecure Hplain].
    destruct (Hsecure ltac:(discriminate)) as (Hflag & Hvia & _ & Hport).
    split; [exact Hflag|]. split; [exact Hvia|]. apply Hport. reflexivity.
  - eexists. split; [reflexivity|].
    destruct (secure_unless_false
                Sample.encode Sample.validate Sample.parse Sample.stringify
                (Sample.config (Num (int 8443)) (Str "false")) _
                "GET" "/api/info" Undefined (Sample.replies 200 []) [] eq_refl)
      as [Hsecure Hplain].
    destruct (Hsecure ltac:(discriminate)) as (Hflag & Hvia & _ & Hport).
    split; [exact Hflag|]. split; [exact Hvia|]. reflexivity.
  - eexists. split; [reflexivity|].
    destruct (secure_unless_false
                Sample.encode Sample.validate Sample.parse Sample.stringify
                (Sample.config Undefined (Bool false)) _
                "GET" "/api/info" Undefined (Sample.replies 200 []) [] eq_refl)
      as [Hsecure Hplain].
    destruct (Hplain eq_refl) as (Hflag & Hvia & _ & Hport).
    split; [exact Hflag|]. split; [exact Hvia|]. apply Hport. reflexivity.
Defined.

(** A response that stops after its first chunk. *)
Lemma request_pending_without_end_witness :
  Net.result (Strict.getInfo Sample.validate Sample.parse Sample.stringify
                             Sample.client)
             (fun _ => [Net.response 200; Net.data "tr"]) []
  = Pending.
Proof.
  apply (request_pending_without_end
           Sample.validate Sample.parse Sample.stringify Sample.client
           "GET" "/api/info" Undefined
           (fun _ => [Net.response 200; Net.data "tr"]) []
           eq_refl (fun _ => eq_refl)).
Defined.

(** The body [true] in one chunk, in two and in four. *)
Lemma request_chunking_irrelevant_witness :
  Net.result (Strict.getInfo Sample.validate Sample.parse Sample.stringify
                             Sample.client)
             (Sample.replies 200 ["true"]) []
  = Net.result (Strict.getInfo Sample.validate Sample.parse Sample.stringify
                               Sample.client)
               (Sample.replies 200 ["tr"; "ue"]) []
  /\ Net.result (Strict.getInfo Sample.validate Sample.parse Sample.stringify
                                Sample.client)
                (Sample.replies 200 ["true"]) []
     = Net.result (Strict.getInfo Sample.validate Sample.parse Sample.stringify
                                  Sample.client)
                  (Sample.replies 200 ["t"; ""; "ru"; "e"]) [].
Proof.
  split.
  - apply (request_chunking_irrelevant
             Sample.validate Sample.parse Sample.stringify Sample.client
             "GET" "/api/info" Undefined (Sample.replies 200 ["true"])
             (Sample.replies 200 ["tr"; "ue"]) [] 200 ["true"] ["tr"; "ue"]
             eq_refl eq_refl eq_refl (fun _ => eq_refl) (fun _ => eq_refl)).
  - apply (request_chunking_irrelevant
             Sample.validate Sample.parse Sample.stringify Sample.client
             "GET" "/api/info" Undefined (Sample.replies 200 ["true"])
             (Sample.replies 200 ["t"; ""; "ru"; "e"]) [] 200 ["true"]
             ["t"; ""; "ru"; "e"]
             eq_refl eq_refl eq_refl (fun _ => eq_refl) (fun _ => eq_refl)).
Defined.
